(** * kachy-valkey-node: configuration, HTTP client and pipeline

    A shallow embedding of [src/config.ts], [src/client.ts] and
    [src/pipeline.ts].  JavaScript values are an inductive type, objects that
    are shared by reference (the headers mappings) live in an explicit heap,
    asynchronous operations are state-passing functions over the state of the
    network, and a [throw] is the [Throw] result of an error monad. *)

From Stdlib Require Import ZArith QArith String Ascii List Bool Lia DecimalString.
From Stdlib Require Import DecimalPos.
From stdpp Require Import base option list gmap strings.

Set Warnings "-register-all".
Local Open Scope string_scope.
Local Open Scope list_scope.

(** ** The JavaScript fragment the sources use *)

Module JS.

(** A JavaScript number.  Finite numbers are kept as exact rationals: the
    sources only store, compare with zero and print numbers, so rounding to a
    double plays no role. *)
Inductive number :=
| NaN
| Inf (negative : bool)
| Fin (q : Q).

Definition int (z : Z) : number := Fin (inject_Z z).

Definition is_zero (q : Q) : bool := (Qnum q =? 0)%Z.

(** The product of two numbers, as [*] computes it. *)
Definition mul (a b : number) : number :=
  match a, b with
  | NaN, _ | _, NaN => NaN
  | Fin x, Fin y => Fin (Qred (x * y))
  | Inf s, Fin y | Fin y, Inf s =>
      if is_zero y then NaN else Inf (xorb s (Qnum y <? 0)%Z)
  | Inf s, Inf t => Inf (xorb s t)
  end.

(** JSON-like values; an object keeps its properties in insertion order. *)
Inductive JsVal :=
| JUndefined
| JNull
| JBool (b : bool)
| JNum (n : number)
| JStr (s : string)
| JArr (items : list JsVal)
| JObj (fields : list (string * JsVal)).

(** Truthiness, the test behind [!x], [x || y] and [if (x)]. *)
Class Truthy (A : Type) := truthy : A -> bool.

#[export] Instance truthy_string : Truthy string :=
  fun s => match s with EmptyString => false | String _ _ => true end.

#[export] Instance truthy_number : Truthy number :=
  fun n => match n with
           | NaN => false
           | Inf _ => true
           | Fin q => negb (is_zero q)
           end.

#[export] Instance truthy_JsVal : Truthy JsVal :=
  fun v => match v with
           | JUndefined | JNull => false
           | JBool b => b
           | JNum n => truthy n
           | JStr s => truthy s
           | JArr _ | JObj _ => true
           end.

(** A possibly [undefined] value of a typed field is an [option]. *)
#[export] Instance truthy_option {A} `{Truthy A} : Truthy (option A) :=
  fun o => match o with Some a => truthy a | None => false end.

(** [a || b] where [b] may still be [undefined], and where it may not. *)
Definition orU {A} `{Truthy A} (a b : option A) : option A :=
  if truthy a then a else b.

Definition orD {A} `{Truthy A} (a : option A) (b : A) : A :=
  match a with
  | Some x => if truthy x then x else b
  | None => b
  end.

Definition orV (a b : JsVal) : JsVal := if truthy a then a else b.

(** *** Strings *)

Definition is_lower (c : ascii) : bool :=
  let n := nat_of_ascii c in (97 <=? n)%nat && (n <=? 122)%nat.

Definition upper_ascii (c : ascii) : ascii :=
  if is_lower c then ascii_of_nat (nat_of_ascii c - 32) else c.

(** [String.prototype.toUpperCase] on the ASCII range. *)
Fixpoint toUpperCase (s : string) : string :=
  match s with
  | EmptyString => EmptyString
  | String c s' => String (upper_ascii c) (toUpperCase s')
  end.

Definition Z_to_string (z : Z) : string := NilZero.string_of_int (Z.to_int z).

(** Digits of the fractional part [r / d] (with [0 <= r < d]), at most
    [fuel] of them. *)
Fixpoint frac_digits (fuel : nat) (r d : Z) : string :=
  match fuel with
  | O => EmptyString
  | S fuel' =>
      if (r =? 0)%Z then EmptyString
      else Z_to_string (10 * r / d) +:+ frac_digits fuel' ((10 * r) mod d) d
  end.

(** [Number.prototype.toString]: exact on integers, a decimal expansion
    otherwise. *)
Definition number_to_string (n : number) : string :=
  match n with
  | NaN => "NaN"
  | Inf false => "Infinity"
  | Inf true => "-Infinity"
  | Fin q =>
      let num := Qnum q in
      let den := Z.pos (Qden q) in
      let ip := Z.quot num den in
      let r := Z.abs (Z.rem num den) in
      if (r =? 0)%Z then Z_to_string ip
      else (if (num <? 0)%Z then "-" else EmptyString)
             +:+ Z_to_string (Z.abs ip) +:+ "." +:+ frac_digits 20 r den
  end.

Fixpoint join (sep : string) (l : list string) : string :=
  match l with
  | [] => EmptyString
  | [x] => x
  | x :: rest => x +:+ sep +:+ join sep rest
  end.

(** [ToString], as a template literal [`${v}`] applies it. *)
Fixpoint ToString (v : JsVal) : string :=
  match v with
  | JUndefined => "undefined"
  | JNull => "null"
  | JBool true => "true"
  | JBool false => "false"
  | JNum n => number_to_string n
  | JStr s => s
  | JArr items =>
      join "," (List.map (fun x => match x with
                                   | JUndefined | JNull => EmptyString
                                   | _ => ToString x
                                   end) items)
  | JObj _ => "[object Object]"
  end.

(** *** Errors and exceptions *)

Inductive ErrorClass :=
| Error
| TypeError
| KachyError
| KachyConnectionError
| KachyAuthenticationError
| KachyResponseError.

(** The [extends] clause of each class. *)
Definition extends (c : ErrorClass) : option ErrorClass :=
  match c with
  | Error => None
  | TypeError => Some Error
  | KachyError => Some Error
  | KachyConnectionError => Some KachyError
  | KachyAuthenticationError => Some KachyError
  | KachyResponseError => Some KachyError
  end.

(** The [name] each constructor leaves on the instance. *)
Definition name (c : ErrorClass) : string :=
  match c with
  | Error => "Error"
  | TypeError => "TypeError"
  | KachyError => "KachyError"
  | KachyConnectionError => "KachyConnectionError"
  | KachyAuthenticationError => "KachyAuthenticationError"
  | KachyResponseError => "KachyResponseError"
  end.

#[export] Instance ErrorClass_eq_dec : EqDecision ErrorClass.
Proof. solve_decision. Defined.

(** [e instanceof c]: walk the prototype chain of [sub] up to [c]. *)
Fixpoint instanceof_fuel (fuel : nat) (sub c : ErrorClass) : bool :=
  if decide (sub = c) then true
  else match fuel, extends sub with
       | S fuel', Some parent => instanceof_fuel fuel' parent c
       | _, _ => false
       end.

Definition instanceof (sub c : ErrorClass) : bool := instanceof_fuel 6 sub c.

Record JsError := mkError { cls : ErrorClass; message : string }.

(** Anything can be thrown: an error object or a bare value. *)
Inductive Thrown :=
| ThrowError (e : JsError)
| ThrowValue (v : JsVal).

Inductive Except (A : Type) :=
| Ok (a : A)
| Throw (t : Thrown).
Arguments Ok {A} a.
Arguments Throw {A} t.

Definition throw_new {A} (c : ErrorClass) (msg : string) : Except A :=
  Throw (ThrowError (mkError c msg)).

(** Property lookup in an object literal. *)
Fixpoint lookup_field (k : string) (fields : list (string * JsVal)) : JsVal :=
  match fields with
  | [] => JUndefined
  | (k', v) :: rest => if String.eqb k k' then v else lookup_field k rest
  end.

(** [v.k] for a data property [k]: a [TypeError] on [undefined] and [null],
    [undefined] on the other primitives and on arrays. *)
Definition get_prop (v : JsVal) (k : string) : Except JsVal :=
  match v with
  | JUndefined =>
      throw_new TypeError
        ("Cannot read properties of undefined (reading '" +:+ k +:+ "')")
  | JNull =>
      throw_new TypeError
        ("Cannot read properties of null (reading '" +:+ k +:+ "')")
  | JObj fields => Ok (lookup_field k fields)
  | _ => Ok JUndefined
  end.

(** [v?.k]. *)
Definition get_prop_opt (v : JsVal) (k : string) : JsVal :=
  match v with
  | JObj fields => lookup_field k fields
  | _ => JUndefined
  end.

(** [error.message] of a caught value. *)
Definition thrown_message (t : Thrown) : Except JsVal :=
  match t with
  | ThrowError e => Ok (JStr (message e))
  | ThrowValue v => get_prop v "message"
  end.

(** [obj.k = v]: overwrite the property, or add it after the others. *)
Fixpoint set_field (k : string) (v : JsVal) (fields : list (string * JsVal))
  : list (string * JsVal) :=
  match fields with
  | [] => [(k, v)]
  | (k', v') :: rest =>
      if String.eqb k k' then (k, v) :: rest else (k', v') :: set_field k v rest
  end.

(** *** [encodeURIComponent] *)

Definition is_unreserved (c : ascii) : bool :=
  let n := nat_of_ascii c in
  ((48 <=? n)%nat && (n <=? 57)%nat)
  || ((65 <=? n)%nat && (n <=? 90)%nat)
  || ((97 <=? n)%nat && (n <=? 122)%nat)
  || existsb (Ascii.eqb c) (list_ascii_of_string "-_.!~*'()").

Definition hex_digit (n : nat) : ascii :=
  nth n (list_ascii_of_string "0123456789ABCDEF") "0"%char.

(** Every byte outside the unreserved set becomes [%XX]. *)
Fixpoint encodeURIComponent (s : string) : string :=
  match s with
  | EmptyString => EmptyString
  | String c s' =>
      if is_unreserved c then String c (encodeURIComponent s')
      else
        let n := nat_of_ascii c in
        String "%" (String (hex_digit (n / 16)) (String (hex_digit (n mod 16))
                                                  (encodeURIComponent s')))
  end.

(** *** [parseInt(s, 10)] and [parseFloat(s)] *)

Definition is_space (c : ascii) : bool :=
  let n := nat_of_ascii c in
  ((9 <=? n)%nat && (n <=? 13)%nat) || (n =? 32)%nat.

Fixpoint skip_spaces (s : string) : string :=
  match s with
  | String c s' => if is_space c then skip_spaces s' else s
  | EmptyString => s
  end.

Definition digit_of (c : ascii) : option Z :=
  let n := nat_of_ascii c in
  if (48 <=? n)%nat && (n <=? 57)%nat then Some (Z.of_nat (n - 48)) else None.

(** The longest prefix of decimal digits: how many, their value continuing
    [acc], and the rest of the string. *)
Fixpoint take_digits (s : string) (count : nat) (acc : Z) : nat * Z * string :=
  match s with
  | String c s' =>
      match digit_of c with
      | Some d => take_digits s' (S count) (10 * acc + d)%Z
      | None => (count, acc, s)
      end
  | EmptyString => (count, acc, s)
  end.

Definition take_sign (s : string) : bool * string :=
  match s with
  | String "-" s' => (true, s')
  | String "+" s' => (false, s')
  | _ => (false, s)
  end.

Definition parseInt (s : string) : number :=
  let '(neg, s1) := take_sign (skip_spaces s) in
  let '(count, v, _) := take_digits s1 0 0 in
  match count with
  | O => NaN
  | S _ => int (if neg then - v else v)
  end.

Definition pow10 (e : Z) : Q :=
  if (0 <=? e)%Z then inject_Z (10 ^ e) else / inject_Z (10 ^ (- e)).

(** The optional exponent part of a decimal literal. *)
Definition take_exponent (s : string) : Z :=
  match s with
  | String c s' =>
      if (Ascii.eqb c "e" || Ascii.eqb c "E")%char then
        let '(neg, s2) := take_sign s' in
        let '(count, v, _) := take_digits s2 0 0 in
        match count with
        | O => 0
        | S _ => if neg then - v else v
        end
      else 0
  | EmptyString => 0
  end%Z.

Definition parseFloat (s : string) : number :=
  let '(neg, s1) := take_sign (skip_spaces s) in
  if String.prefix "Infinity" s1 then Inf neg
  else
    let '(ci, vi, s2) := take_digits s1 0 0 in
    let '(cf, vf, s3) :=
      match s2 with
      | String "." s2' => take_digits s2' 0 vi
      | _ => (O, vi, s2)
      end in
    match (ci + cf)%nat with
    | O => NaN
    | S _ =>
        let m := inject_Z (if neg then - vf else vf) in
        Fin (Qred (m * pow10 (take_exponent s3 - Z.of_nat cf)))
    end.

End JS.

(** ** Objects held by reference

    A headers mapping is a mutable object: the configuration, the caller's
    options and the exported snapshot each hold a reference to one. *)

Module Heap.

Abbreviation loc := nat.
Abbreviation Headers := (gmap string string).
Abbreviation heap := (gmap nat (gmap string string)).

(** An object literal or a spread allocates a new object. *)
Definition alloc (o : Headers) (h : heap) : loc * heap :=
  let l := fresh (dom h) in (l, <[l := o]> h).

Definition read (l : loc) (h : heap) : Headers := default ∅ (h !! l).

(** [obj[k] = v] and [delete obj[k]] through the reference [l]. *)
Definition write (l : loc) (k v : string) (h : heap) : heap :=
  alter (insert k v) l h.

Definition remove (l : loc) (k : string) (h : heap) : heap :=
  alter (delete k) l h.

End Heap.

(** ** [src/config.ts] *)

Module KachyConfigOptions.

Record t := mk {
  baseUrl : option string;
  timeout : option JS.number;
  maxRetries : option JS.number;
  retryDelay : option JS.number;
  poolSize : option JS.number;
  userAgent : option string;
  headers : option Heap.loc
}.

(** The default argument [options = {}]. *)
Definition empty : t := mk None None None None None None None.

End KachyConfigOptions.

Module KachyConfig.
Import JS.

Abbreviation process_env := (gmap string string).

Record t := mk {
  accessKey : string;
  baseUrl : string;
  timeout : number;
  maxRetries : number;
  retryDelay : number;
  poolSize : number;
  userAgent : string;
  headers : Heap.loc
}.

(** What [toObject] returns: an object literal with the same properties. *)
Record plain := mkPlain {
  p_accessKey : string;
  p_baseUrl : string;
  p_timeout : number;
  p_maxRetries : number;
  p_retryDelay : number;
  p_poolSize : number;
  p_userAgent : string;
  p_headers : Heap.loc
}.

Definition default_headers (userAgent : string) : Heap.Headers :=
  <["User-Agent" := userAgent]>
    (<["Accept" := "application/json"]>
       (<["Content-Type" := "application/json"]> ∅)).

(** [new KachyConfig(accessKey, options)], with [process.env] as [env]. *)
Definition constructor (env : process_env) (accessKey : option string)
    (options : KachyConfigOptions.t) (h : Heap.heap)
  : Except t * Heap.heap :=
  if negb (truthy accessKey) then
    (throw_new Error "KACHY_ACCESS_KEY is required", h)
  else
    let this_accessKey := default EmptyString accessKey in
    let this_baseUrl :=
      orD (orU (KachyConfigOptions.baseUrl options) (env !! "KACHY_BASE_URL"))
          "https://api.klache.net" in
    let this_timeout :=
      orD (KachyConfigOptions.timeout options)
          (parseInt (orD (env !! "KACHY_TIMEOUT") "30")) in
    let this_maxRetries :=
      orD (KachyConfigOptions.maxRetries options)
          (parseInt (orD (env !! "KACHY_MAX_RETRIES") "3")) in
    let this_retryDelay :=
      orD (KachyConfigOptions.retryDelay options)
          (parseFloat (orD (env !! "KACHY_RETRY_DELAY") "1.0")) in
    let this_poolSize :=
      orD (KachyConfigOptions.poolSize options)
          (parseInt (orD (env !! "KACHY_POOL_SIZE") "10")) in
    let this_userAgent :=
      orD (KachyConfigOptions.userAgent options) "kachy-valkey-node/0.1.0" in
    let '(this_headers, h') :=
      match KachyConfigOptions.headers options with
      | Some l => (l, h)
      | None => Heap.alloc (default_headers this_userAgent) h
      end in
    (Ok (mk this_accessKey this_baseUrl this_timeout this_maxRetries
            this_retryDelay this_poolSize this_userAgent this_headers), h').

(** [toObject()]: the spread [{ ...this.headers }] is a new object. *)
Definition toObject (this : t) (h : Heap.heap) : plain * Heap.heap :=
  let '(copy, h') := Heap.alloc (Heap.read (headers this) h) h in
  (mkPlain (accessKey this) (baseUrl this) (timeout this) (maxRetries this)
           (retryDelay this) (poolSize this) (userAgent this) copy, h').

(** [KachyConfig.fromEnv()]. *)
Definition fromEnv (env : process_env) (h : Heap.heap) : Except t * Heap.heap :=
  let accessKey := env !! "KACHY_ACCESS_KEY" in
  if negb (truthy accessKey) then
    (throw_new Error "KACHY_ACCESS_KEY environment variable is required", h)
  else constructor env accessKey KachyConfigOptions.empty h.

End KachyConfig.

(** ** The HTTP library, as far as the client drives it *)

Module Axios.
Import JS.

(** One record for instance defaults and for per-request configuration. *)
Record AxiosRequestConfig := mkConfig {
  baseURL : option string;
  timeout : option number;
  headers : Heap.Headers;
  method : option string;
  url : option string;
  data : option JsVal
}.

Record AxiosResponse := mkResponse {
  status : Z;
  statusText : string;
  response_data : JsVal
}.

(** The rejection value of a failed request. *)
Record AxiosError := mkAxiosError {
  response : option AxiosResponse;
  code : option string;
  error_message : string
}.

Inductive Settled :=
| Fulfilled (r : AxiosResponse)
| Rejected (e : AxiosError).

(** The network: the world behind the transport and every request that was
    handed to it, oldest first. *)
Record NetState (W : Type) := mkNet { world : W; sent : list AxiosRequestConfig }.
Arguments mkNet {W} world sent.
Arguments world {W} _.
Arguments sent {W} _.

(** An asynchronous computation, run to completion by [await]. *)
Definition Async (W A : Type) : Type := NetState W -> Except A * NetState W.

Definition ret {W A} (a : A) : Async W A := fun s => (Ok a, s).

Definition bind {W A B} (m : Async W A) (k : A -> Async W B) : Async W B :=
  fun s => match m s with
           | (Ok a, s') => k a s'
           | (Throw t, s') => (Throw t, s')
           end.

Definition lift {W A} (r : Except A) : Async W A := fun s => (r, s).

Definition throw {W A} (t : Thrown) : Async W A := fun s => (Throw t, s).

(** [try { m } catch (error) { handler error }]. *)
Definition try_catch {W A} (m : Async W A) (handler : Thrown -> Async W A)
  : Async W A :=
  fun s => match m s with
           | (Ok a, s') => (Ok a, s')
           | (Throw t, s') => handler t s'
           end.

Module Import Notations.
Notation "x <- m ;; k" := (bind m (fun x => k))
  (at level 100, m at next level, right associativity).
End Notations.

(** An instance: its defaults and the interceptors registered on it.  The
    headers are those the caller configures; what the library adds on its own
    account is not part of the model. *)
Record AxiosInstance := mkInstance {
  defaults : AxiosRequestConfig;
  request_interceptor : AxiosRequestConfig -> AxiosRequestConfig;
  response_fulfilled : AxiosResponse -> Except AxiosResponse;
  response_rejected : AxiosError -> Except AxiosResponse
}.

(** Per-request settings win over the instance defaults; headers are merged. *)
Definition mergeConfig (d c : AxiosRequestConfig) : AxiosRequestConfig :=
  mkConfig (from_option Some (baseURL d) (baseURL c))
           (from_option Some (timeout d) (timeout c))
           (headers c ∪ headers d)
           (from_option Some (method d) (method c))
           (from_option Some (url d) (url c))
           (from_option Some (data d) (data c)).

Section Request.
Context {W : Type}.
(** The adapter: what the network answers to a request. *)
Variable transport : AxiosRequestConfig -> W -> Settled * W.

(** [instance.request(config)]: merge, run the request interceptor, send,
    then run the response interceptor on the outcome. *)
Definition request (inst : AxiosInstance) (config : AxiosRequestConfig)
  : Async W AxiosResponse :=
  fun s =>
    let req := request_interceptor inst (mergeConfig (defaults inst) config) in
    let '(outcome, w') := transport req (world s) in
    let s' := mkNet w' (sent s ++ [req]) in
    match outcome with
    | Fulfilled r => (response_fulfilled inst r, s')
    | Rejected e => (response_rejected inst e, s')
    end.
End Request.

End Axios.

(** ** [src/pipeline.ts] *)

Module KachyPipeline.
Import JS Axios Axios.Notations.

Record PipelineCommand := mkCommand { command : string; args : list JsVal }.

(** A pipeline holds its client and the array of queued commands. *)
Record t (C : Type) := mk { client : C; commands : list PipelineCommand }.
Arguments mk {C} client commands.
Arguments client {C} _.
Arguments commands {C} _.

Section Pipeline.
Context {W C : Type}.
(** [this.client.redis], the only method of the client a pipeline calls. *)
Variable client_redis : C -> string -> list JsVal -> Async W JsVal.

Definition constructor (c : C) : t C := mk c [].

(** [this.commands.push(cmd); return this]. *)
Definition push (this : t C) (cmd : PipelineCommand) : t C :=
  mk (client this) (commands this ++ [cmd]).

Definition set (this : t C) (key value : string) (ex : option number) : t C :=
  push this (mkCommand "SET"
               match ex with
               | Some seconds => [JStr key; JStr value; JNum seconds]
               | None => [JStr key; JStr value]
               end).

Definition get (this : t C) (key : string) : t C :=
  push this (mkCommand "GET" [JStr key]).

Definition delete (this : t C) (key : string) : t C :=
  push this (mkCommand "DEL" [JStr key]).

Definition exists_ (this : t C) (key : string) : t C :=
  push this (mkCommand "EXISTS" [JStr key]).

Definition expire (this : t C) (key : string) (seconds : number) : t C :=
  push this (mkCommand "EXPIRE" [JStr key; JNum seconds]).

Definition ttl (this : t C) (key : string) : t C :=
  push this (mkCommand "TTL" [JStr key]).

Definition redis (this : t C) (cmd : string) (arguments : list JsVal) : t C :=
  push this (mkCommand (toUpperCase cmd) arguments).

(** [this.commands.length = 0]. *)
Definition clear (this : t C) : t C := mk (client this) [].

Definition length (this : t C) : nat := List.length (commands this).

(** The [for (const cmd of this.commands)] loop of [execute], with
    [results] as the array built so far. *)
Fixpoint replay (c : C) (cmds : list PipelineCommand) (results : list JsVal)
  : Async W (list JsVal) :=
  match cmds with
  | [] => ret results
  | cmd :: rest =>
      results' <-
        try_catch
          (result <- client_redis c (command cmd) (args cmd) ;;
           ret (results ++ [result]))
          (fun error =>
             msg <- lift (thrown_message error) ;;
             ret (results ++ [JObj [("error", msg)]])) ;;
      replay c rest results'
  end.

(** [execute()]: the result, the pipeline afterwards and the network
    afterwards. *)
Definition execute (this : t C) (s : NetState W)
  : Except (list JsVal) * t C * NetState W :=
  if (List.length (commands this) =? 0)%nat then (Ok [], this, s)
  else
    match replay (client this) (commands this) [] s with
    | (Ok results, s') => (Ok results, clear this, s')
    | (Throw error, s') => (Throw error, clear this, s')
    end.
End Pipeline.

End KachyPipeline.

(** ** [src/client.ts] *)

Module KachyClient.
Import JS Axios Axios.Notations.

Record t := mk { config : KachyConfig.t; httpClient : AxiosInstance }.

(** The last three branches of the response interceptor, which look at
    [error.code] only. *)
Definition transport_fault (error : AxiosError) : Except AxiosResponse :=
  if bool_decide (code error = Some "ECONNABORTED") then
    throw_new KachyConnectionError "Request timeout"
  else if bool_decide (code error = Some "ENOTFOUND")
          || bool_decide (code error = Some "ECONNREFUSED") then
    throw_new KachyConnectionError "Connection failed"
  else
    throw_new KachyConnectionError ("Request failed: " +:+ error_message error).

(** The rejection handler of the response interceptor.  Without a response
    [error.response?.status] is [undefined], which is neither [=== 401] nor
    [>= 400]. *)
Definition on_rejected (error : AxiosError) : Except AxiosResponse :=
  match response error with
  | Some r =>
      if (status r =? 401)%Z then
        throw_new KachyAuthenticationError "Authentication failed"
      else if (400 <=? status r)%Z then
        throw_new KachyResponseError
          ("API error " +:+ Z_to_string (status r) +:+ ": "
           +:+ ToString (orV (get_prop_opt (response_data r) "message")
                             (JStr (statusText r))))
      else transport_fault error
  | None => transport_fault error
  end.

(** The request interceptor: [config.headers.Authorization = ...]. *)
Definition authenticate (config : KachyConfig.t) (c : AxiosRequestConfig)
  : AxiosRequestConfig :=
  mkConfig (baseURL c) (timeout c)
           (<["Authorization" := "Bearer " +:+ KachyConfig.accessKey config]>
              (headers c))
           (method c) (url c) (data c).

(** [axios.create] copies the headers object it is given. *)
Definition createHttpClient (config : KachyConfig.t) (h : Heap.heap)
  : AxiosInstance :=
  mkInstance
    (mkConfig (Some (KachyConfig.baseUrl config))
              (Some (mul (KachyConfig.timeout config) (int 1000)))
              (Heap.read (KachyConfig.headers config) h)
              None None None)
    (authenticate config)
    (fun response => Ok response)
    on_rejected.

Definition constructor (config : KachyConfig.t) (h : Heap.heap) : t :=
  mk config (createHttpClient config h).

(** A per-request configuration [{ method, url, data }]. *)
Definition call (m u : string) (d : option JsVal) : AxiosRequestConfig :=
  mkConfig None None ∅ (Some m) (Some u) d.

Section Operations.
Context {W : Type}.
Variable transport : AxiosRequestConfig -> W -> Settled * W.

Definition makeRequest (this : t) (config : AxiosRequestConfig)
  : Async W JsVal :=
  try_catch
    (response <- request transport (httpClient this) config ;;
     ret (response_data response))
    (fun error => throw error).

Definition set (this : t) (key value : string) (ex : option number)
  : Async W JsVal :=
  let data := [("key", JStr key); ("value", JStr value)] in
  let data := match ex with
              | Some seconds => set_field "ex" (JNum seconds) data
              | None => data
              end in
  result <- makeRequest this (call "POST" "/valkey/set" (Some (JObj data))) ;;
  lift (get_prop result "success").

Definition get (this : t) (key : string) : Async W JsVal :=
  result <- makeRequest this
              (call "GET" ("/valkey/get/" +:+ encodeURIComponent key) None) ;;
  lift (get_prop result "value").

Definition delete (this : t) (key : string) : Async W JsVal :=
  result <- makeRequest this
              (call "DELETE" ("/valkey/del/" +:+ encodeURIComponent key) None) ;;
  lift (get_prop result "deleted").

Definition exists_ (this : t) (key : string) : Async W JsVal :=
  result <- makeRequest this
              (call "GET" ("/valkey/exists/" +:+ encodeURIComponent key) None) ;;
  lift (get_prop result "exists").

Definition expire (this : t) (key : string) (seconds : number)
  : Async W JsVal :=
  result <- makeRequest this
              (call "POST" "/valkey/expire"
                    (Some (JObj [("key", JStr key); ("seconds", JNum seconds)]))) ;;
  lift (get_prop result "success").

Definition ttl (this : t) (key : string) : Async W JsVal :=
  result <- makeRequest this
              (call "GET" ("/valkey/ttl/" +:+ encodeURIComponent key) None) ;;
  lift (get_prop result "ttl").

Definition redis (this : t) (command : string) (args : list JsVal)
  : Async W JsVal :=
  result <- makeRequest this
              (call "POST" "/valkey/exec"
                    (Some (JObj [("command", JStr (toUpperCase command));
                                 ("args", JArr args)]))) ;;
  lift (get_prop result "result").

Definition pipeline (this : t) : KachyPipeline.t t :=
  KachyPipeline.constructor this.

(** [close()] has an empty body. *)
Definition close (this : t) : t := this.

(** [pipeline.execute()] of a pipeline bound to a [KachyClient]. *)
Definition execute (p : KachyPipeline.t t) :=
  KachyPipeline.execute redis p.
End Operations.

End KachyClient.

(** ** [src/index.ts] *)

Module Index.
Import JS Axios.

(** [let globalClient: KachyClient | null = null]. *)
Abbreviation global := (option KachyClient.t).

Definition initial : global := None.

(** [init(accessKey, options)]: the global client is assigned only after
    the configuration was built. *)
Definition init (env : KachyConfig.process_env) (accessKey : option string)
    (options : KachyConfigOptions.t) (globalClient : global) (h : Heap.heap)
  : Except KachyClient.t * global * Heap.heap :=
  match KachyConfig.constructor env accessKey options h with
  | (Ok config, h') =>
      let client := KachyClient.constructor config h' in
      (Ok client, Some client, h')
  | (Throw t, h') => (Throw t, globalClient, h')
  end.

Definition getClient (globalClient : global) : Except KachyClient.t :=
  match globalClient with
  | Some client => Ok client
  | None =>
      throw_new Error "Kachy client not initialized. Call kachy.init() first."
  end.

Section Convenience.
Context {W : Type}.
Variable transport : AxiosRequestConfig -> W -> Settled * W.

(** [getClient().method(...)]. *)
Definition delegate {A} (globalClient : global)
    (method : KachyClient.t -> Async W A) : Async W A :=
  match getClient globalClient with
  | Ok client => method client
  | Throw t => throw t
  end.

Definition set (globalClient : global) (key value : string)
    (ex : option number) : Async W JsVal :=
  delegate globalClient
    (fun client => KachyClient.set transport client key value ex).

Definition get (globalClient : global) (key : string) : Async W JsVal :=
  delegate globalClient (fun client => KachyClient.get transport client key).

Definition deleteKey (globalClient : global) (key : string) : Async W JsVal :=
  delegate globalClient (fun client => KachyClient.delete transport client key).

Definition exists_ (globalClient : global) (key : string) : Async W JsVal :=
  delegate globalClient (fun client => KachyClient.exists_ transport client key).

Definition expire (globalClient : global) (key : string) (seconds : number)
  : Async W JsVal :=
  delegate globalClient
    (fun client => KachyClient.expire transport client key seconds).

Definition ttl (globalClient : global) (key : string) : Async W JsVal :=
  delegate globalClient (fun client => KachyClient.ttl transport client key).

Definition valkey (globalClient : global) (command : string)
    (args : list JsVal) : Async W JsVal :=
  delegate globalClient
    (fun client => KachyClient.redis transport client command args).
End Convenience.

Definition pipeline (globalClient : global)
  : Except (KachyPipeline.t KachyClient.t) :=
  match getClient globalClient with
  | Ok client => Ok (KachyClient.pipeline client)
  | Throw t => Throw t
  end.

(** [close()]: close the client, if there is one, and forget it. *)
Definition close (globalClient : global) : global :=
  match globalClient with
  | Some client => let _ := KachyClient.close client in None
  | None => None
  end.

End Index.

(** ** Vocabulary of the statements *)

Import JS Axios.

(** The operations of a client, with their arguments. *)
Inductive Operation :=
| OpSet (key value : string) (ex : option number)
| OpGet (key : string)
| OpDelete (key : string)
| OpExists (key : string)
| OpExpire (key : string) (seconds : number)
| OpTtl (key : string)
| OpRedis (command : string) (args : list JsVal).

Definition perform {W} (transport : AxiosRequestConfig -> W -> Settled * W)
    (this : KachyClient.t) (op : Operation) : Async W JsVal :=
  match op with
  | OpSet key value ex => KachyClient.set transport this key value ex
  | OpGet key => KachyClient.get transport this key
  | OpDelete key => KachyClient.delete transport this key
  | OpExists key => KachyClient.exists_ transport this key
  | OpExpire key seconds => KachyClient.expire transport this key seconds
  | OpTtl key => KachyClient.ttl transport this key
  | OpRedis command args => KachyClient.redis transport this command args
  end.

(** A per-request configuration as it reaches the transport from the client
    built on [config]: merged into the instance defaults, then authenticated. *)
Definition wire (config : KachyConfig.t) (h : Heap.heap)
    (c : AxiosRequestConfig) : AxiosRequestConfig :=
  let inst := KachyClient.createHttpClient config h in
  request_interceptor inst (mergeConfig (defaults inst) c).

(** The request the raw-command operation sends for a queued command. *)
Definition exec_request (config : KachyConfig.t) (h : Heap.heap)
    (cmd : KachyPipeline.PipelineCommand) : AxiosRequestConfig :=
  wire config h
    (KachyClient.call "POST" "/valkey/exec"
       (Some (JObj [("command", JStr (toUpperCase (KachyPipeline.command cmd)));
                    ("args", JArr (KachyPipeline.args cmd))]))).

(** What a pipeline reports for a queue: one entry per command, the value of
    the raw command or the descriptor of the error it threw, each command run
    in the network state its predecessor left. *)
Inductive Replayed {W} (run : string -> list JsVal -> Async W JsVal)
  : list KachyPipeline.PipelineCommand -> NetState W -> list JsVal
    -> NetState W -> Prop :=
| Replayed_nil s : Replayed run [] s [] s
| Replayed_value cmd rest s v s1 rs s2 :
    run (KachyPipeline.command cmd) (KachyPipeline.args cmd) s = (Ok v, s1) ->
    Replayed run rest s1 rs s2 ->
    Replayed run (cmd :: rest) s (v :: rs) s2
| Replayed_error cmd rest s e s1 rs s2 :
    run (KachyPipeline.command cmd) (KachyPipeline.args cmd) s
    = (Throw (ThrowError e), s1) ->
    Replayed run rest s1 rs s2 ->
    Replayed run (cmd :: rest) s (JObj [("error", JStr (message e))] :: rs) s2.

(** The precedence of a configuration field: a truthy option, else a truthy
    environment variable (parsed), else the default. *)
Inductive Resolves {A} `{Truthy A} (parse : string -> A) (default : A)
  : option A -> option string -> A -> Prop :=
| Resolves_option x e :
    truthy x = true -> Resolves parse default (Some x) e x
| Resolves_env o e :
    truthy o = false -> truthy e = true ->
    Resolves parse default o (Some e) (parse e)
| Resolves_default o e :
    truthy o = false -> truthy e = false ->
    Resolves parse default o e default.

(** The three kinds the response interceptor throws. *)
Definition interceptor_kinds : list ErrorClass :=
  [KachyAuthenticationError; KachyResponseError; KachyConnectionError].

(** An error with no HTTP status of 400 or more. *)
Definition below_400 (error : AxiosError) : Prop :=
  match response error with
  | Some r => (status r < 400)%Z
  | None => True
  end.

(** The text after the status code in the message of a Response error. *)
Definition response_detail (r : AxiosResponse) : string :=
  ToString (orV (get_prop_opt (response_data r) "message") (JStr (statusText r))).

(** The per-request configuration and the response field of an operation. *)
Definition request_of (op : Operation) : AxiosRequestConfig :=
  match op with
  | OpSet key value ex =>
      KachyClient.call "POST" "/valkey/set"
        (Some (JObj ([("key", JStr key); ("value", JStr value)]
                     ++ match ex with
                        | Some seconds => [("ex", JNum seconds)]
                        | None => []
                        end)))
  | OpGet key =>
      KachyClient.call "GET" ("/valkey/get/" +:+ encodeURIComponent key) None
  | OpDelete key =>
      KachyClient.call "DELETE" ("/valkey/del/" +:+ encodeURIComponent key) None
  | OpExists key =>
      KachyClient.call "GET" ("/valkey/exists/" +:+ encodeURIComponent key) None
  | OpExpire key seconds =>
      KachyClient.call "POST" "/valkey/expire"
        (Some (JObj [("key", JStr key); ("seconds", JNum seconds)]))
  | OpTtl key =>
      KachyClient.call "GET" ("/valkey/ttl/" +:+ encodeURIComponent key) None
  | OpRedis command args =>
      KachyClient.call "POST" "/valkey/exec"
        (Some (JObj [("command", JStr (toUpperCase command));
                     ("args", JArr args)]))
  end.

Definition field_of (op : Operation) : string :=
  match op with
  | OpSet _ _ _ => "success"
  | OpGet _ => "value"
  | OpDelete _ => "deleted"
  | OpExists _ => "exists"
  | OpExpire _ _ => "success"
  | OpTtl _ => "ttl"
  | OpRedis _ _ => "result"
  end.

(** The four error classes of the client. *)
Definition client_error_classes : list ErrorClass :=
  [KachyError; KachyConnectionError; KachyAuthenticationError;
   KachyResponseError].

(** The convenience function of [index.ts] for each operation. *)
Definition perform_global {W}
    (transport : AxiosRequestConfig -> W -> Settled * W)
    (globalClient : Index.global) (op : Operation) : Async W JsVal :=
  match op with
  | OpSet key value ex => Index.set transport globalClient key value ex
  | OpGet key => Index.get transport globalClient key
  | OpDelete key => Index.deleteKey transport globalClient key
  | OpExists key => Index.exists_ transport globalClient key
  | OpExpire key seconds => Index.expire transport globalClient key seconds
  | OpTtl key => Index.ttl transport globalClient key
  | OpRedis command args => Index.valkey transport globalClient command args
  end.

(** The mutators of a pipeline, with their arguments. *)
Inductive Mutation :=
| MSet (key value : string) (ex : option number)
| MGet (key : string)
| MDelete (key : string)
| MExists (key : string)
| MExpire (key : string) (seconds : number)
| MTtl (key : string)
| MRedis (command : string) (args : list JsVal).

Definition queue {C} (p : KachyPipeline.t C) (m : Mutation) : KachyPipeline.t C :=
  match m with
  | MSet key value ex => KachyPipeline.set p key value ex
  | MGet key => KachyPipeline.get p key
  | MDelete key => KachyPipeline.delete p key
  | MExists key => KachyPipeline.exists_ p key
  | MExpire key seconds => KachyPipeline.expire p key seconds
  | MTtl key => KachyPipeline.ttl p key
  | MRedis command args => KachyPipeline.redis p command args
  end.

(** A chain [p.m1(...).m2(...)...]. *)
Definition chain {C} (p : KachyPipeline.t C) (ms : list Mutation)
  : KachyPipeline.t C :=
  fold_left queue ms p.

(** The command a mutator stands for. *)
Definition command_of (m : Mutation) : KachyPipeline.PipelineCommand :=
  match m with
  | MSet key value (Some seconds) =>
      KachyPipeline.mkCommand "SET" [JStr key; JStr value; JNum seconds]
  | MSet key value None => KachyPipeline.mkCommand "SET" [JStr key; JStr value]
  | MGet key => KachyPipeline.mkCommand "GET" [JStr key]
  | MDelete key => KachyPipeline.mkCommand "DEL" [JStr key]
  | MExists key => KachyPipeline.mkCommand "EXISTS" [JStr key]
  | MExpire key seconds =>
      KachyPipeline.mkCommand "EXPIRE" [JStr key; JNum seconds]
  | MTtl key => KachyPipeline.mkCommand "TTL" [JStr key]
  | MRedis command args => KachyPipeline.mkCommand (toUpperCase command) args
  end.

(** A string without lower-case ASCII letters. *)
Definition no_lower (s : string) : bool :=
  forallb (fun c => negb (is_lower c)) (list_ascii_of_string s).

(** An exported snapshot read as the options of a constructor call: the
    property names of the two are the same. *)
Definition options_of_plain (o : KachyConfig.plain) : KachyConfigOptions.t :=
  KachyConfigOptions.mk
    (Some (KachyConfig.p_baseUrl o)) (Some (KachyConfig.p_timeout o))
    (Some (KachyConfig.p_maxRetries o)) (Some (KachyConfig.p_retryDelay o))
    (Some (KachyConfig.p_poolSize o)) (Some (KachyConfig.p_userAgent o))
    (Some (KachyConfig.p_headers o)).

(** The environment variables the constructor reads. *)
Definition config_variables : list string :=
  ["KACHY_BASE_URL"; "KACHY_TIMEOUT"; "KACHY_MAX_RETRIES"; "KACHY_RETRY_DELAY";
   "KACHY_POOL_SIZE"].

(** ** Theorems *)

(** *** Error normalization *)

Lemma on_rejected_http (error : AxiosError) (r : AxiosResponse) :
  response error = Some r -> (400 <= status r)%Z ->
  KachyClient.on_rejected error =
  if (status r =? 401)%Z
  then throw_new KachyAuthenticationError "Authentication failed"
  else throw_new KachyResponseError
         ("API error " +:+ Z_to_string (status r) +:+ ": " +:+ response_detail r).
Proof.
  intros Hr Hge. unfold KachyClient.on_rejected. rewrite Hr.
  destruct (status r =? 401)%Z; [reflexivity|].
  apply Z.leb_le in Hge. rewrite Hge. reflexivity.
Qed.

Lemma on_rejected_fault (error : AxiosError) :
  below_400 error ->
  KachyClient.on_rejected error = KachyClient.transport_fault error.
Proof.
  unfold below_400, KachyClient.on_rejected.
  destruct (response error) as [r|]; [|reflexivity].
  intros Hlt.
  replace (status r =? 401)%Z with false by (symmetry; apply Z.eqb_neq; lia).
  replace (400 <=? status r)%Z with false by (symmetry; apply Z.leb_gt; lia).
  reflexivity.
Qed.

Lemma on_rejected_throws (error : AxiosError) :
  exists c msg, KachyClient.on_rejected error = throw_new c msg
                /\ In c interceptor_kinds.
Proof.
  unfold KachyClient.on_rejected, KachyClient.transport_fault, interceptor_kinds.
  destruct (response error) as [r|];
    repeat match goal with
           | |- context [if ?b then _ else _] => destruct b
           end;
    eexists _, _; (split; [reflexivity | simpl; tauto]).
Qed.

(** Running [makeRequest] on the client built from [config]: one request goes
    out, and the outcome passes through the response interceptor. *)
Lemma makeRequest_run {W} (transport : AxiosRequestConfig -> W -> Settled * W)
    (config : KachyConfig.t) (h : Heap.heap) (c : AxiosRequestConfig)
    (s : NetState W) :
  KachyClient.makeRequest transport (KachyClient.constructor config h) c s =
  (match fst (transport (wire config h c) (world s)) with
   | Fulfilled r => Ok (response_data r)
   | Rejected e =>
       match KachyClient.on_rejected e with
       | Ok r => Ok (response_data r)
       | Throw t => Throw t
       end
   end,
   mkNet (snd (transport (wire config h c) (world s)))
         (sent s ++ [wire config h c])).
Proof.
  unfold KachyClient.makeRequest, try_catch, bind, request, wire, ret, throw.
  simpl.
  destruct (transport _ (world s)) as [[r|e] w']; simpl; [reflexivity|].
  destruct (KachyClient.on_rejected e); reflexivity.
Qed.

(** Every operation is one [makeRequest] followed by one property read. *)
Lemma perform_run {W} (transport : AxiosRequestConfig -> W -> Settled * W)
    (config : KachyConfig.t) (h : Heap.heap) (op : Operation) (s : NetState W) :
  perform transport (KachyClient.constructor config h) op s =
  (match fst (transport (wire config h (request_of op)) (world s)) with
   | Fulfilled r => get_prop (response_data r) (field_of op)
   | Rejected e =>
       match KachyClient.on_rejected e with
       | Ok r => get_prop (response_data r) (field_of op)
       | Throw t => Throw t
       end
   end,
   mkNet (snd (transport (wire config h (request_of op)) (world s)))
         (sent s ++ [wire config h (request_of op)])).
Proof.
  destruct op as [key value [seconds|]| | | | | |]; simpl;
    unfold KachyClient.set, KachyClient.get, KachyClient.delete,
      KachyClient.exists_, KachyClient.expire, KachyClient.ttl,
      KachyClient.redis, bind, lift;
    rewrite makeRequest_run; simpl;
    destruct (fst (transport _ (world s))) as [r|e]; try reflexivity;
    destruct (KachyClient.on_rejected e); reflexivity.
Qed.



(** *** Configuration *)

Lemma truthy_string_true (k : string) : k <> EmptyString -> truthy k = true.
Proof. destruct k; [congruence | reflexivity]. Qed.

(** With a non-empty key the constructor returns a configuration. *)
Lemma constructor_succeeds (env : gmap string string) (key : string)
    (options : KachyConfigOptions.t) (h : Heap.heap) :
  key <> EmptyString ->
  exists config h',
    KachyConfig.constructor env (Some key) options h = (Ok config, h')
    /\ KachyConfig.accessKey config = key.
Proof.
  intros Hkey. unfold KachyConfig.constructor.
  replace (truthy (Some key)) with true
    by (symmetry; apply truthy_string_true, Hkey).
  simpl. destruct (KachyConfigOptions.headers options) as [l|]; simpl;
    eexists _, _; split; reflexivity.
Qed.

(** C6, as the code has it.  The constructor throws
    [Error "KACHY_ACCESS_KEY is required"] when the access key is absent or
    empty and returns a configuration holding the key when it is not empty;
    [fromEnv] throws
    [Error "KACHY_ACCESS_KEY environment variable is required"] exactly when
    the variable is absent or empty, and otherwise is the constructor applied
    to the variable with no options. *)
Theorem missing_credential (env : gmap string string) (h : Heap.heap) :
  (forall key options,
      key = None \/ key = Some EmptyString ->
      KachyConfig.constructor env key options h
      = (throw_new Error "KACHY_ACCESS_KEY is required", h))
  /\ (forall key options,
        key <> EmptyString ->
        exists config h',
          KachyConfig.constructor env (Some key) options h = (Ok config, h')
          /\ KachyConfig.accessKey config = key)
  /\ (env !! "KACHY_ACCESS_KEY" = None \/ env !! "KACHY_ACCESS_KEY" = Some EmptyString
      <-> KachyConfig.fromEnv env h
          = (throw_new Error "KACHY_ACCESS_KEY environment variable is required",
             h))
  /\ (forall key,
        env !! "KACHY_ACCESS_KEY" = Some key -> key <> EmptyString ->
        KachyConfig.fromEnv env h
        = KachyConfig.constructor env (Some key) KachyConfigOptions.empty h
        /\ exists config h',
            KachyConfig.fromEnv env h = (Ok config, h')
            /\ KachyConfig.accessKey config = key).
Proof.
  split.
  { intros key options [-> | ->]; reflexivity. }
  split.
  { intros key options Hkey. apply constructor_succeeds, Hkey. }
  split.
  { unfold KachyConfig.fromEnv.
    destruct (env !! "KACHY_ACCESS_KEY") as [key|] eqn:Hk.
    - destruct key as [|c key]; simpl.
      + split; [reflexivity | intros _; right; reflexivity].
      + split; [intros [H|H]; discriminate H|].
        intros Heq.
        destruct (constructor_succeeds env (String c key)
                    KachyConfigOptions.empty h) as (config & h' & Hc & _);
          [discriminate|].
        rewrite Hc in Heq. discriminate Heq.
    - simpl. split; [reflexivity | intros _; left; reflexivity]. }
  intros key Hk Hkey. unfold KachyConfig.fromEnv. rewrite Hk.
  replace (truthy (Some key)) with true
    by (symmetry; apply truthy_string_true, Hkey).
  simpl. split; [reflexivity|].
  apply constructor_succeeds, Hkey.
Qed.

(** An absent key is refused, and the key "test-secret" is kept. *)
Lemma missing_credential_witness :
  KachyConfig.constructor ∅ None KachyConfigOptions.empty ∅
  = (throw_new Error "KACHY_ACCESS_KEY is required", ∅)
  /\ exists config h',
      KachyConfig.constructor ∅ (Some "test-secret") KachyConfigOptions.empty ∅
      = (Ok config, h')
      /\ KachyConfig.accessKey config = "test-secret".
Proof.
  destruct (missing_credential ∅ ∅) as (Hfail & Hgood & _).
  split.
  - apply Hfail. left. reflexivity.
  - apply Hgood. discriminate.
Defined.

(** C6 as stated fails: with the variable present but empty, [fromEnv]
    throws although the variable is not absent. *)
Lemma fromEnv_empty_variable_counterexample :
  let env : gmap string string := {[ "KACHY_ACCESS_KEY" := EmptyString ]} in
  ~ ((exists t, fst (KachyConfig.fromEnv env ∅) = Throw t)
     <-> env !! "KACHY_ACCESS_KEY" = None).
Proof.
  intros env [Hfails _].
  assert (Habsent : env !! "KACHY_ACCESS_KEY" = None).
  { apply Hfails. eexists. reflexivity. }
  vm_compute in Habsent. discriminate Habsent.
Qed.

Lemma resolves_string (o e : option string) (d : string) :
  Resolves (fun x => x) d o e (orD (orU o e) d).
Proof.
  assert (Henv : truthy o = false -> Resolves (fun x => x) d o e (orD e d)).
  { intros Ho. unfold orD. destruct e as [y|].
    - destruct (truthy y) eqn:Hy.
      + apply (Resolves_env (fun x => x)); assumption.
      + apply Resolves_default; assumption.
    - apply Resolves_default; [assumption | reflexivity]. }
  unfold orU. destruct o as [x|]; cbn [truthy truthy_option].
  - destruct (truthy x) eqn:Hx.
    + cbn [orD]. rewrite Hx. apply Resolves_option, Hx.
    + apply Henv. exact Hx.
  - apply Henv. reflexivity.
Qed.

Lemma resolves_number (parse : string -> number) (o : option number)
    (e : option string) (d : string) :
  Resolves parse (parse d) o e (orD o (parse (orD e d))).
Proof.
  assert (Henv : truthy o = false ->
                 Resolves parse (parse d) o e (parse (orD e d))).
  { intros Ho. unfold orD. destruct e as [y|].
    - destruct (truthy y) eqn:Hy.
      + apply Resolves_env; assumption.
      + apply Resolves_default; assumption.
    - apply Resolves_default; [assumption | reflexivity]. }
  destruct o as [x|]; simpl.
  - destruct (truthy x) eqn:Hx.
    + apply Resolves_option, Hx.
    + apply Henv. exact Hx.
  - apply Henv. reflexivity.
Qed.

(** C3, as the code has it.  With a non-empty key the constructor resolves
    baseUrl, timeout, maxRetries, retryDelay and poolSize by: the option when
    it is supplied and truthy, else the environment variable when it is set
    and not empty (parsed for the numeric fields), else the default
    (https://api.klache.net, 30, 3, 1, 10).  The headers field has no
    environment variable: it is the supplied headers object itself, else a new
    object with the three default headers. *)
Theorem option_env_default_precedence (env : gmap string string)
    (key : string) (options : KachyConfigOptions.t) (h : Heap.heap) :
  key <> EmptyString ->
  exists config h',
    KachyConfig.constructor env (Some key) options h = (Ok config, h')
    /\ Resolves (fun x => x) "https://api.klache.net"
         (KachyConfigOptions.baseUrl options) (env !! "KACHY_BASE_URL")
         (KachyConfig.baseUrl config)
    /\ Resolves parseInt (int 30)
         (KachyConfigOptions.timeout options) (env !! "KACHY_TIMEOUT")
         (KachyConfig.timeout config)
    /\ Resolves parseInt (int 3)
         (KachyConfigOptions.maxRetries options) (env !! "KACHY_MAX_RETRIES")
         (KachyConfig.maxRetries config)
    /\ Resolves parseFloat (int 1)
         (KachyConfigOptions.retryDelay options) (env !! "KACHY_RETRY_DELAY")
         (KachyConfig.retryDelay config)
    /\ Resolves parseInt (int 10)
         (KachyConfigOptions.poolSize options) (env !! "KACHY_POOL_SIZE")
         (KachyConfig.poolSize config)
    /\ (forall l, KachyConfigOptions.headers options = Some l ->
                  KachyConfig.headers config = l /\ h' = h)
    /\ (KachyConfigOptions.headers options = None ->
        h !! KachyConfig.headers config = None
        /\ h' = <[KachyConfig.headers config :=
                    KachyConfig.default_headers (KachyConfig.userAgent config)]> h).
Proof.
  intros Hkey. unfold KachyConfig.constructor.
  replace (truthy (Some key)) with true
    by (symmetry; apply truthy_string_true, Hkey).
  cbv beta iota delta [negb].
  destruct (KachyConfigOptions.headers options) as [l|] eqn:Hh;
    cbv beta iota zeta delta [Heap.alloc];
    eexists _, _; (split; [reflexivity|]); cbn [KachyConfig.baseUrl
      KachyConfig.timeout KachyConfig.maxRetries KachyConfig.retryDelay
      KachyConfig.poolSize KachyConfig.headers KachyConfig.userAgent];
    (split; [apply resolves_string|]);
    (split; [apply (resolves_number parseInt _ _ "30")|]);
    (split; [apply (resolves_number parseInt _ _ "3")|]);
    (split; [apply (resolves_number parseFloat _ _ "1.0")|]);
    (split; [apply (resolves_number parseInt _ _ "10")|]).
  - split; [intros l' [= <-]; split; reflexivity | discriminate].
  - split; [discriminate|]. intros _. split; [|reflexivity].
    apply not_elem_of_dom, is_fresh.
Qed.

(** The precedence with all three sources in play: the option gives the base
    URL, the environment the timeout, the default the pool size. *)
Lemma option_env_default_precedence_witness :
  let env : gmap string string :=
    <["KACHY_BASE_URL" := "https://env.example"]> {[ "KACHY_TIMEOUT" := "60" ]} in
  let options :=
    KachyConfigOptions.mk (Some "https://option.example") None None None None
      None None in
  exists config h',
    KachyConfig.constructor env (Some "key") options ∅ = (Ok config, h')
    /\ KachyConfig.baseUrl config = "https://option.example"
    /\ KachyConfig.timeout config = int 60
    /\ KachyConfig.poolSize config = int 10.
Proof.
  intros env options.
  destruct (option_env_default_precedence env "key" options ∅)
    as (config & h' & Hc & Hurl & Htimeout & _ & _ & Hpool & _);
    [discriminate|].
  exists config, h'. split; [exact Hc|].
  vm_compute in Hc. injection Hc as <- <-.
  repeat split; reflexivity.
Defined.

(** C3 as stated fails on falsy options: an explicit timeout of 0 loses to
    the environment variable, and an explicit maxRetries of 0 with no
    environment variable loses to the default. *)
Lemma falsy_option_counterexample :
  let env : gmap string string := {[ "KACHY_TIMEOUT" := "60" ]} in
  let options :=
    KachyConfigOptions.mk None (Some (int 0)) (Some (int 0)) None None None
      None in
  exists config h',
    KachyConfig.constructor env (Some "key") options ∅ = (Ok config, h')
    /\ KachyConfigOptions.timeout options = Some (int 0)
    /\ KachyConfig.timeout config = int 60
    /\ KachyConfigOptions.maxRetries options = Some (int 0)
    /\ KachyConfig.maxRetries config = int 3
    /\ KachyConfig.timeout config <> int 0
    /\ KachyConfig.maxRetries config <> int 0.
Proof.
  intros env options. eexists _, _. split; [vm_compute; reflexivity|].
  repeat split; try reflexivity; vm_compute; discriminate.
Qed.

(** C9. [toObject] returns the eight fields of the configuration; its
    headers are a new object with the same entries as the configuration's
    headers, every object that existed before is left as it was, and writing
    or deleting an entry through the returned reference leaves the
    configuration's headers unchanged. *)
Theorem toObject_copies_headers (config : KachyConfig.t) (h : Heap.heap) :
  is_Some (h !! KachyConfig.headers config) ->
  exists o h',
    KachyConfig.toObject config h = (o, h')
    /\ KachyConfig.p_accessKey o = KachyConfig.accessKey config
    /\ KachyConfig.p_baseUrl o = KachyConfig.baseUrl config
    /\ KachyConfig.p_timeout o = KachyConfig.timeout config
    /\ KachyConfig.p_maxRetries o = KachyConfig.maxRetries config
    /\ KachyConfig.p_retryDelay o = KachyConfig.retryDelay config
    /\ KachyConfig.p_poolSize o = KachyConfig.poolSize config
    /\ KachyConfig.p_userAgent o = KachyConfig.userAgent config
    /\ KachyConfig.p_headers o <> KachyConfig.headers config
    /\ h !! KachyConfig.p_headers o = None
    /\ Heap.read (KachyConfig.p_headers o) h'
       = Heap.read (KachyConfig.headers config) h
    /\ (forall l, l <> KachyConfig.p_headers o -> h' !! l = h !! l)
    /\ (forall k v,
          Heap.read (KachyConfig.p_headers o)
            (Heap.write (KachyConfig.p_headers o) k v h')
          = <[k := v]> (Heap.read (KachyConfig.headers config) h))
    /\ (forall k v,
          Heap.read (KachyConfig.headers config)
            (Heap.write (KachyConfig.p_headers o) k v h')
          = Heap.read (KachyConfig.headers config) h)
    /\ (forall k,
          Heap.read (KachyConfig.headers config)
            (Heap.remove (KachyConfig.p_headers o) k h')
          = Heap.read (KachyConfig.headers config) h).
Proof.
  intros Halloc. unfold KachyConfig.toObject, Heap.alloc.
  set (l := fresh (dom h)).
  assert (Hfresh : h !! l = None) by apply not_elem_of_dom, is_fresh.
  assert (Hne : l <> KachyConfig.headers config).
  { intros Heq. rewrite Heq in Hfresh. rewrite Hfresh in Halloc.
    destruct Halloc as [x Hx]. discriminate Hx. }
  eexists _, _. split; [reflexivity|]. cbn [KachyConfig.p_accessKey
    KachyConfig.p_baseUrl KachyConfig.p_timeout KachyConfig.p_maxRetries
    KachyConfig.p_retryDelay KachyConfig.p_poolSize KachyConfig.p_userAgent
    KachyConfig.p_headers].
  do 7 (split; [reflexivity|]).
  split; [exact Hne|]. split; [exact Hfresh|].
  split. { unfold Heap.read at 1. rewrite lookup_insert_eq. reflexivity. }
  split. { intros l' Hl'. apply lookup_insert_ne. congruence. }
  split.
  { intros k v. unfold Heap.read at 1, Heap.write.
    rewrite lookup_alter_eq, lookup_insert_eq. reflexivity. }
  split.
  { intros k v. unfold Heap.read at 1, Heap.write.
    rewrite lookup_alter_ne, lookup_insert_ne by exact Hne. reflexivity. }
  intros k. unfold Heap.read at 1, Heap.remove.
  rewrite lookup_alter_ne, lookup_insert_ne by exact Hne. reflexivity.
Qed.

(** The snapshot of a default configuration: adding a header to the
    snapshot does not add it to the configuration. *)
Lemma toObject_copies_headers_witness :
  let h : Heap.heap := {[ 0%nat := KachyConfig.default_headers "agent" ]} in
  let config :=
    KachyConfig.mk "key" "https://api.klache.net" (int 30) (int 3) (int 1)
      (int 10) "agent" 0%nat in
  exists o h',
    KachyConfig.toObject config h = (o, h')
    /\ KachyConfig.p_headers o <> KachyConfig.headers config
    /\ Heap.read (KachyConfig.headers config)
         (Heap.write (KachyConfig.p_headers o) "X-Extra" "1" h')
       = KachyConfig.default_headers "agent".
Proof.
  intros h config.
  destruct (toObject_copies_headers config h)
    as (o & h' & Hto & _ & _ & _ & _ & _ & _ & _ & Hne & _ & _ & _ & _ & Hw & _).
  - exists (KachyConfig.default_headers "agent"). reflexivity.
  - exists o, h'. split; [exact Hto|]. split; [exact Hne|].
    rewrite Hw. reflexivity.
Defined.

(** *** Requests of the client *)

Lemma request_of_headers (op : Operation) : headers (request_of op) = ∅.
Proof. destruct op; reflexivity. Qed.

(** The headers of a request on the wire: the configuration's headers, with
    Authorization written over them. *)
Lemma wire_headers (config : KachyConfig.t) (h : Heap.heap) (op : Operation) :
  headers (wire config h (request_of op))
  = <["Authorization" := "Bearer " +:+ KachyConfig.accessKey config]>
      (Heap.read (KachyConfig.headers config) h).
Proof.
  unfold wire. simpl. rewrite request_of_headers, (left_id_L ∅ (∪)).
  reflexivity.
Qed.

Lemma wire_call (config : KachyConfig.t) (h : Heap.heap) (m u : string)
    (d : option JsVal) :
  method (wire config h (KachyClient.call m u d)) = Some m
  /\ url (wire config h (KachyClient.call m u d)) = Some u
  /\ data (wire config h (KachyClient.call m u d)) = d.
Proof. unfold wire. simpl. destruct d; repeat split; reflexivity. Qed.

Lemma constructor_default_headers (env : gmap string string)
    (key : option string) (options : KachyConfigOptions.t) (h0 h : Heap.heap)
    (config : KachyConfig.t) :
  KachyConfigOptions.headers options = None ->
  KachyConfig.constructor env key options h0 = (Ok config, h) ->
  Heap.read (KachyConfig.headers config) h
  = KachyConfig.default_headers (KachyConfig.userAgent config).
Proof.
  intros Hnone. unfold KachyConfig.constructor.
  destruct (negb (truthy key)); [discriminate|].
  rewrite Hnone. unfold Heap.alloc. intros [= <- <-]. simpl.
  unfold Heap.read. rewrite lookup_insert_eq. reflexivity.
Qed.




(** C7. [set] sends one POST to /valkey/set.  Without an expiration the body
    is exactly [{key, value}], with no ex field; with an expiration it is
    [{key, value, ex}] with ex the argument.  When the request is fulfilled
    the operation returns the success field of the response body. *)
Theorem set_request_body {W}
    (transport : AxiosRequestConfig -> W -> Settled * W)
    (config : KachyConfig.t) (h : Heap.heap) (key value : string)
    (ex : option number) (s : NetState W) :
  let this := KachyClient.constructor config h in
  exists req,
    sent (snd (KachyClient.set transport this key value ex s)) = sent s ++ [req]
    /\ method req = Some "POST"
    /\ url req = Some "/valkey/set"
    /\ (ex = None ->
        data req = Some (JObj [("key", JStr key); ("value", JStr value)])
        /\ forall fields, data req = Some (JObj fields) ->
                          ~ In "ex" (List.map fst fields))
    /\ (forall seconds, ex = Some seconds ->
          data req = Some (JObj [("key", JStr key); ("value", JStr value);
                                 ("ex", JNum seconds)]))
    /\ (forall r, fst (transport req (world s)) = Fulfilled r ->
          fst (KachyClient.set transport this key value ex s)
          = get_prop (response_data r) "success")
    /\ (forall r fields b,
          fst (transport req (world s)) = Fulfilled r ->
          response_data r = JObj fields ->
          lookup_field "success" fields = JBool b ->
          fst (KachyClient.set transport this key value ex s) = Ok (JBool b)).
Proof.
  intros this. subst this.
  change (KachyClient.set transport (KachyClient.constructor config h)
            key value ex s)
    with (perform transport (KachyClient.constructor config h)
            (OpSet key value ex) s).
  rewrite perform_run.
  exists (wire config h (request_of (OpSet key value ex))).
  destruct (wire_call config h "POST" "/valkey/set"
              (data (request_of (OpSet key value ex)))) as (Hm & Hu & Hd).
  split; [reflexivity|]. split; [exact Hm|]. split; [exact Hu|].
  split.
  { intros ->. split; [exact Hd|].
    intros fields Hf. change (data _) with
      (Some (JObj [("key", JStr key); ("value", JStr value)])) in Hf.
    injection Hf as <-. simpl. intros [H|[H|[]]]; discriminate H. }
  split.
  { intros seconds ->. exact Hd. }
  split.
  { intros r Hr. cbn [fst]. rewrite Hr. reflexivity. }
  intros r fields b Hr Hdata Hb. cbn [fst]. rewrite Hr. cbn [field_of].
  rewrite Hdata. cbn [get_prop]. rewrite Hb. reflexivity.
Qed.

(** [set("k", "v")] and [set("k", "v", 3600)] against a server that answers
    [{success: true}]. *)
Lemma set_request_body_witness :
  let transport := fun (_ : AxiosRequestConfig) (w : unit) =>
    (Fulfilled (mkResponse 200 "OK" (JObj [("success", JBool true)])), w) in
  let config :=
    KachyConfig.mk "key" "https://api.klache.net" (int 30) (int 3) (int 1)
      (int 10) "agent" 0%nat in
  let this := KachyClient.constructor config ∅ in
  (exists req,
      sent (snd (KachyClient.set transport this "k" "v" None (mkNet tt [])))
      = [req]
      /\ data req = Some (JObj [("key", JStr "k"); ("value", JStr "v")]))
  /\ (exists req,
        sent (snd (KachyClient.set transport this "k" "v" (Some (int 3600))
                     (mkNet tt [])))
        = [req]
        /\ data req = Some (JObj [("key", JStr "k"); ("value", JStr "v");
                                  ("ex", JNum (int 3600))])
        /\ fst (KachyClient.set transport this "k" "v" (Some (int 3600))
                  (mkNet tt []))
           = Ok (JBool true)).
Proof.
  intros transport config this. split.
  - destruct (set_request_body transport config ∅ "k" "v" None (mkNet tt []))
      as (req & Hsent & _ & _ & Hnone & _).
    exists req. split; [exact Hsent|]. apply Hnone. reflexivity.
  - destruct (set_request_body transport config ∅ "k" "v" (Some (int 3600))
                (mkNet tt []))
      as (req & Hsent & _ & _ & _ & Hsome & _ & Hret).
    exists req. split; [exact Hsent|]. split; [apply Hsome; reflexivity|].
    apply (Hret (mkResponse 200 "OK" (JObj [("success", JBool true)]))
             [("success", JBool true)] true); reflexivity.
Defined.

(** Upper-casing leaves no lower-case letter and is idempotent. *)
Lemma upper_ascii_not_lower (c : ascii) : is_lower (upper_ascii c) = false.
Proof. destruct c as [[] [] [] [] [] [] [] []]; reflexivity. Qed.

Lemma toUpperCase_no_lower (s : string) :
  forallb (fun c => negb (is_lower c)) (list_ascii_of_string (toUpperCase s))
  = true.
Proof.
  induction s as [|c s IH]; [reflexivity|].
  simpl. rewrite upper_ascii_not_lower, IH. reflexivity.
Qed.

Lemma toUpperCase_idempotent (s : string) :
  toUpperCase (toUpperCase s) = toUpperCase s.
Proof.
  induction s as [|c s IH]; [reflexivity|].
  simpl. rewrite IH. f_equal.
  unfold upper_ascii at 1. rewrite upper_ascii_not_lower. reflexivity.
Qed.



(** *** Pipeline *)

Section Replay.
Context {W C : Type}.
Variable client_redis : C -> string -> list JsVal -> Async W JsVal.
Variable c : C.

(** The loop only extends the results it was given, one entry per
    command, as long as the client throws error objects. *)
Lemma replay_Replayed :
  (forall cmd a s t s', client_redis c cmd a s = (Throw t, s') ->
                        exists e, t = ThrowError e) ->
  forall cmds acc s,
  exists rs s',
    KachyPipeline.replay client_redis c cmds acc s = (Ok (acc ++ rs), s')
    /\ Replayed (client_redis c) cmds s rs s'.
Proof.
  intros Herr cmds. induction cmds as [|cmd rest IH]; intros acc s.
  - exists [], s. rewrite app_nil_r. split; [reflexivity | constructor].
  - cbn [KachyPipeline.replay]. unfold bind at 1, try_catch, bind, ret, lift.
    destruct (client_redis c (KachyPipeline.command cmd)
                (KachyPipeline.args cmd) s) as [[v|t] s1] eqn:Hrun.
    + destruct (IH (acc ++ [v]) s1) as (rs & s2 & Hrest & Hrep).
      exists (v :: rs), s2. rewrite Hrest, <- app_assoc.
      split; [reflexivity|]. eapply Replayed_value; eassumption.
    + destruct (Herr _ _ _ _ _ Hrun) as [e ->]. cbn [thrown_message].
      destruct (IH (acc ++ [JObj [("error", JStr (message e))]]) s1)
        as (rs & s2 & Hrest & Hrep).
      exists (JObj [("error", JStr (message e))] :: rs), s2.
      rewrite Hrest, <- app_assoc.
      split; [reflexivity|]. eapply Replayed_error; eassumption.
Qed.

Lemma Replayed_length cmds s rs s' :
  Replayed (client_redis c) cmds s rs s' -> length rs = length cmds.
Proof. induction 1; simpl; congruence. Qed.

(** Position [i] of the results reports command [i]. *)
Lemma Replayed_lookup cmds s rs s' :
  Replayed (client_redis c) cmds s rs s' ->
  forall i cmd, cmds !! i = Some cmd ->
  exists si si',
    (exists v,
        client_redis c (KachyPipeline.command cmd) (KachyPipeline.args cmd) si
        = (Ok v, si')
        /\ rs !! i = Some v)
    \/ (exists e,
          client_redis c (KachyPipeline.command cmd) (KachyPipeline.args cmd) si
          = (Throw (ThrowError e), si')
          /\ rs !! i = Some (JObj [("error", JStr (message e))])).
Proof.
  induction 1 as [s|cmd0 rest s v s1 rs s2 Hrun Hrep IH
                    |cmd0 rest s e s1 rs s2 Hrun Hrep IH];
    intros i cmd Hi.
  - discriminate Hi.
  - destruct i as [|i]; [|exact (IH i cmd Hi)].
    injection Hi as <-. exists s, s1. left. exists v. split; [exact Hrun|].
    reflexivity.
  - destruct i as [|i]; [|exact (IH i cmd Hi)].
    injection Hi as <-. exists s, s1. right. exists e.
    split; [exact Hrun | reflexivity].
Qed.
End Replay.

(** The raw command of a [KachyClient] sends its request whatever the
    outcome, and throws error objects only. *)
Lemma redis_sent {W} (transport : AxiosRequestConfig -> W -> Settled * W)
    (config : KachyConfig.t) (h : Heap.heap) (command : string)
    (args : list JsVal) (s : NetState W) :
  sent (snd (KachyClient.redis transport (KachyClient.constructor config h)
               command args s))
  = sent s ++ [exec_request config h (KachyPipeline.mkCommand command args)].
Proof.
  change (KachyClient.redis transport (KachyClient.constructor config h)
            command args s)
    with (perform transport (KachyClient.constructor config h)
            (OpRedis command args) s).
  rewrite perform_run. reflexivity.
Qed.

Lemma get_prop_throws (v : JsVal) (k : string) (t : Thrown) :
  get_prop v k = Throw t -> exists e, t = ThrowError e.
Proof.
  destruct v; simpl; intros Heq; try discriminate Heq;
    injection Heq as <-; eexists; reflexivity.
Qed.

Lemma redis_throws_errors {W}
    (transport : AxiosRequestConfig -> W -> Settled * W)
    (config : KachyConfig.t) (h : Heap.heap) (command : string)
    (args : list JsVal) (s s' : NetState W) (t : Thrown) :
  KachyClient.redis transport (KachyClient.constructor config h) command args s
  = (Throw t, s') ->
  exists e, t = ThrowError e.
Proof.
  change (KachyClient.redis transport (KachyClient.constructor config h)
            command args s)
    with (perform transport (KachyClient.constructor config h)
            (OpRedis command args) s).
  rewrite perform_run. intros [= Hres _]. revert Hres.
  destruct (fst (transport _ (world s))) as [r|error].
  - apply get_prop_throws.
  - destruct (on_rejected_throws error) as (cl & msg & -> & _).
    intros [= <-]. eexists. reflexivity.
Qed.

Lemma Replayed_sent {W} (transport : AxiosRequestConfig -> W -> Settled * W)
    (config : KachyConfig.t) (h : Heap.heap) cmds s rs s' :
  Replayed (KachyClient.redis transport (KachyClient.constructor config h))
    cmds s rs s' ->
  sent s' = sent s ++ List.map (exec_request config h) cmds.
Proof.
  induction 1 as [s|cmd rest s v s1 rs s2 Hrun Hrep IH
                    |cmd rest s e s1 rs s2 Hrun Hrep IH].
  - rewrite app_nil_r. reflexivity.
  - pose proof (redis_sent transport config h (KachyPipeline.command cmd)
                  (KachyPipeline.args cmd) s) as Hs.
    rewrite Hrun in Hs. cbn [snd] in Hs.
    rewrite IH, Hs, <- app_assoc. destruct cmd. reflexivity.
  - pose proof (redis_sent transport config h (KachyPipeline.command cmd)
                  (KachyPipeline.args cmd) s) as Hs.
    rewrite Hrun in Hs. cbn [snd] in Hs.
    rewrite IH, Hs, <- app_assoc. destruct cmd. reflexivity.
Qed.

(** Executing a non-empty pipeline bound to a [KachyClient]. *)
Lemma execute_run {W} (transport : AxiosRequestConfig -> W -> Settled * W)
    (config : KachyConfig.t) (h : Heap.heap)
    (cmds : list KachyPipeline.PipelineCommand) (s : NetState W) :
  cmds <> [] ->
  let this := KachyClient.constructor config h in
  exists results s',
    KachyClient.execute transport (KachyPipeline.mk this cmds) s
    = (Ok results, KachyPipeline.mk this [], s')
    /\ Replayed (KachyClient.redis transport this) cmds s results s'.
Proof.
  intros Hne this.
  destruct (replay_Replayed (KachyClient.redis transport) this
              (fun cmd a s0 t s1 =>
                 redis_throws_errors transport config h cmd a s0 s1 t)
              cmds [] s)
    as (rs & s' & Hrun & Hrep).
  exists rs, s'. split; [|exact Hrep].
  unfold KachyClient.execute, KachyPipeline.execute.
  cbn [KachyPipeline.commands KachyPipeline.client].
  destruct cmds as [|cmd rest]; [congruence|].
  cbn [List.length Nat.eqb]. rewrite Hrun. reflexivity.
Qed.

(** C2. Executing a non-empty queue of n commands on a pipeline bound to a
    [KachyClient] returns normally with n results; the raw-command requests
    go out once per command in the order of insertion; the result at each
    position is the value of that command's raw call, or the descriptor
    [{error: message}] of the error it threw, and a command that failed is
    followed by the remaining ones. *)
Theorem execute_replays_in_order {W}
    (transport : AxiosRequestConfig -> W -> Settled * W)
    (config : KachyConfig.t) (h : Heap.heap)
    (cmds : list KachyPipeline.PipelineCommand) (s : NetState W) :
  cmds <> [] ->
  let this := KachyClient.constructor config h in
  let p := KachyPipeline.mk this cmds in
  exists results s',
    KachyClient.execute transport p s = (Ok results, KachyPipeline.clear p, s')
    /\ Replayed (KachyClient.redis transport this) cmds s results s'
    /\ length results = length cmds
    /\ sent s' = sent s ++ List.map (exec_request config h) cmds
    /\ forall i cmd, cmds !! i = Some cmd ->
       exists si si',
         (exists v,
             KachyClient.redis transport this (KachyPipeline.command cmd)
               (KachyPipeline.args cmd) si = (Ok v, si')
             /\ results !! i = Some v)
         \/ (exists e,
               KachyClient.redis transport this (KachyPipeline.command cmd)
                 (KachyPipeline.args cmd) si = (Throw (ThrowError e), si')
               /\ results !! i = Some (JObj [("error", JStr (message e))])).
Proof.
  intros Hne this p.
  destruct (execute_run transport config h cmds s Hne)
    as (results & s' & Hexec & Hrep).
  exists results, s'. split; [exact Hexec|]. split; [exact Hrep|].
  split; [eapply Replayed_length, Hrep|].
  split; [eapply Replayed_sent, Hrep|].
  eapply Replayed_lookup, Hrep.
Qed.

(** Three commands against a server that fails every second request with a
    500: the middle position holds the error descriptor, the third command
    still runs. *)
Lemma execute_replays_in_order_witness :
  let transport := fun (_ : AxiosRequestConfig) (w : nat) =>
    (if Nat.even w
     then Fulfilled (mkResponse 200 "OK" (JObj [("result", JStr "OK")]))
     else Rejected
            (mkAxiosError
               (Some (mkResponse 500 "Internal Server Error"
                        (JObj [("message", JStr "boom")])))
               (Some "ERR_BAD_RESPONSE") "Request failed with status code 500"),
     S w) in
  let config :=
    KachyConfig.mk "key" "https://api.klache.net" (int 30) (int 3) (int 1)
      (int 10) "agent" 0%nat in
  let cmds :=
    [KachyPipeline.mkCommand "SET" [JStr "a"; JStr "1"];
     KachyPipeline.mkCommand "GET" [JStr "a"];
     KachyPipeline.mkCommand "DEL" [JStr "a"]] in
  let p := KachyPipeline.mk (KachyClient.constructor config ∅) cmds in
  exists s',
    KachyClient.execute transport p (mkNet 0%nat [])
    = (Ok [JStr "OK"; JObj [("error", JStr "API error 500: boom")]; JStr "OK"],
       KachyPipeline.clear p, s')
    /\ sent s' = List.map (exec_request config ∅) cmds.
Proof.
  intros transport config cmds p.
  destruct (execute_replays_in_order transport config ∅ cmds (mkNet 0%nat []))
    as (results & s' & Hexec & _ & _ & Hsent & _); [discriminate|].
  exists s'. split; [|exact Hsent].
  transitivity (Ok results, KachyPipeline.clear p, s'); [exact Hexec|].
  vm_compute in Hexec. injection Hexec as <- _.
  reflexivity.
Defined.

(** C4. After [execute] the queue is empty, whether it returned or threw.
    On an empty queue it returns the empty array and leaves the network as
    it was: no request is sent.  On a non-empty queue its outcome is the
    outcome of the replay loop: the results when the loop completes, and the
    same error thrown again when an error escapes the per-command handler. *)
Theorem execute_clears_queue {W C}
    (client_redis : C -> string -> list JsVal -> Async W JsVal)
    (p : KachyPipeline.t C) (s : NetState W) :
  let '(r, p', s') := KachyPipeline.execute client_redis p s in
  KachyPipeline.length p' = 0%nat
  /\ KachyPipeline.client p' = KachyPipeline.client p
  /\ (KachyPipeline.length p = 0%nat -> r = Ok [] /\ s' = s)
  /\ (KachyPipeline.length p <> 0%nat ->
      (r, s') = KachyPipeline.replay client_redis (KachyPipeline.client p)
                  (KachyPipeline.commands p) [] s).
Proof.
  unfold KachyPipeline.execute, KachyPipeline.length.
  destruct (KachyPipeline.commands p) as [|cmd rest] eqn:Hcmds.
  - cbn [List.length Nat.eqb]. rewrite Hcmds.
    split; [reflexivity|]. split; [reflexivity|].
    split; [intros _; split; reflexivity|].
    intros Hne. contradiction Hne. reflexivity.
  - cbn [List.length Nat.eqb].
    destruct (KachyPipeline.replay client_redis (KachyPipeline.client p)
                (cmd :: rest) [] s) as [[results|error] s'];
      (split; [reflexivity|]); (split; [reflexivity|]);
      (split; [discriminate | reflexivity]).
Qed.

(** A client whose raw command throws [undefined]: reading [error.message]
    in the per-command handler throws, [execute] throws that error, and the
    queue is empty afterwards. *)
Lemma execute_clears_queue_witness :
  let client_redis := fun (_ : unit) (_ : string) (_ : list JsVal)
      (s : NetState unit) => (Throw (A:=JsVal) (ThrowValue JUndefined), s) in
  let p := KachyPipeline.get (KachyPipeline.constructor tt) "k" in
  exists t p' s',
    KachyPipeline.execute client_redis p (mkNet tt []) = (Throw t, p', s')
    /\ KachyPipeline.length p = 1%nat
    /\ KachyPipeline.length p' = 0%nat
    /\ KachyPipeline.execute client_redis p' s' = (Ok [], p', s').
Proof.
  intros client_redis p.
  pose proof (execute_clears_queue client_redis p (mkNet tt [])) as H.
  destruct (KachyPipeline.execute client_redis p (mkNet tt []))
    as [[r p'] s'] eqn:Hexec.
  destruct H as (Hlen & _ & _ & Hthrow).
  assert (Hr : (r, s') = (throw_new TypeError
                            "Cannot read properties of undefined (reading 'message')",
                          mkNet tt [])).
  { rewrite Hthrow by discriminate. reflexivity. }
  injection Hr as -> ->.
  eexists _, p', _. split; [reflexivity|]. split; [reflexivity|].
  split; [exact Hlen|].
  pose proof (execute_clears_queue client_redis p' (mkNet tt [])) as H'.
  destruct (KachyPipeline.execute client_redis p' (mkNet tt []))
    as [[r2 p2] s2] eqn:Hexec2.
  destruct H' as (_ & _ & Hempty & _).
  destruct (Hempty Hlen) as [-> ->].
  vm_compute in Hexec. injection Hexec as <-.
  vm_compute in Hexec2. injection Hexec2 as <-. reflexivity.
Defined.

(** C10. Queuing [set(key, value, seconds)] appends the command SET with
    the arguments [key, value, seconds]; on [execute] it is the last request
    sent, a POST to /valkey/exec with body
    [{command: "SET", args: [key, value, seconds]}], whereas the client's own
    [set] posts [{key, value, ex: seconds}] to /valkey/set. *)
Theorem pipeline_set_uses_exec {W}
    (transport : AxiosRequestConfig -> W -> Settled * W)
    (config : KachyConfig.t) (h : Heap.heap)
    (cmds : list KachyPipeline.PipelineCommand) (key value : string)
    (seconds : number) (s : NetState W) :
  let this := KachyClient.constructor config h in
  let p := KachyPipeline.set (KachyPipeline.mk this cmds) key value
             (Some seconds) in
  KachyPipeline.commands p
  = cmds ++ [KachyPipeline.mkCommand "SET"
               [JStr key; JStr value; JNum seconds]]
  /\ exists results s' req direct,
      KachyClient.execute transport p s = (Ok results, KachyPipeline.clear p, s')
      /\ length results = S (length cmds)
      /\ sent s' = sent s ++ List.map (exec_request config h) cmds ++ [req]
      /\ method req = Some "POST"
      /\ url req = Some "/valkey/exec"
      /\ data req = Some (JObj [("command", JStr "SET");
                                ("args", JArr [JStr key; JStr value;
                                               JNum seconds])])
      /\ sent (snd (KachyClient.set transport this key value (Some seconds) s))
         = sent s ++ [direct]
      /\ method direct = Some "POST"
      /\ url direct = Some "/valkey/set"
      /\ data direct = Some (JObj [("key", JStr key); ("value", JStr value);
                                   ("ex", JNum seconds)]).
Proof.
  intros this p. split; [reflexivity|].
  set (cmd := KachyPipeline.mkCommand "SET" [JStr key; JStr value; JNum seconds]).
  destruct (execute_run transport config h (cmds ++ [cmd]) s)
    as (results & s' & Hexec & Hrep).
  { destruct cmds; discriminate. }
  exists results, s', (exec_request config h cmd),
    (wire config h (request_of (OpSet key value (Some seconds)))).
  split; [exact Hexec|].
  split.
  { rewrite (Replayed_length _ _ _ _ _ _ Hrep), length_app. simpl. lia. }
  split.
  { rewrite (Replayed_sent _ _ _ _ _ _ _ Hrep), map_app. reflexivity. }
  destruct (wire_call config h "POST" "/valkey/exec"
              (Some (JObj [("command", JStr "SET");
                           ("args", JArr [JStr key; JStr value; JNum seconds])])))
    as (Hm & Hu & Hd).
  split; [exact Hm|]. split; [exact Hu|]. split; [exact Hd|].
  change (KachyClient.set transport this key value (Some seconds) s)
    with (perform transport (KachyClient.constructor config h)
            (OpSet key value (Some seconds)) s).
  rewrite perform_run. split; [reflexivity|].
  apply (wire_call config h "POST" "/valkey/set").
Qed.

(** ** Further properties *)

(** *** Configuration *)

Lemma orD_falsy {A} `{Truthy A} (o : option A) (d : A) :
  truthy o = false -> orD o d = d.
Proof.
  destruct o as [x|]; [|reflexivity]. cbn [truthy truthy_option orD].
  intros ->. reflexivity.
Qed.

Lemma orD_truthy {A} `{Truthy A} (o : option A) (d : A) :
  truthy d = true -> truthy (orD o d) = true.
Proof.
  intros Hd. destruct o as [x|]; [|exact Hd]. cbn [orD].
  destruct (truthy x) eqn:Hx; assumption.
Qed.

Lemma orD_Some_truthy {A} `{Truthy A} (x d : A) :
  truthy x = true -> orD (Some x) d = x.
Proof. intros Hx. cbn [orD]. rewrite Hx. reflexivity. Qed.

Lemma truthy_string_nonempty (k : string) : truthy k = true -> k <> EmptyString.
Proof. destruct k; [discriminate | discriminate]. Qed.

(** What a successful constructor call returned, field by field. *)
Lemma constructor_inv (env : gmap string string) (key : option string)
    (options : KachyConfigOptions.t) (h h' : Heap.heap)
    (config : KachyConfig.t) :
  KachyConfig.constructor env key options h = (Ok config, h') ->
  key = Some (KachyConfig.accessKey config)
  /\ truthy (KachyConfig.accessKey config) = true
  /\ KachyConfig.baseUrl config
     = orD (orU (KachyConfigOptions.baseUrl options) (env !! "KACHY_BASE_URL"))
         "https://api.klache.net"
  /\ KachyConfig.timeout config
     = orD (KachyConfigOptions.timeout options)
         (parseInt (orD (env !! "KACHY_TIMEOUT") "30"))
  /\ KachyConfig.maxRetries config
     = orD (KachyConfigOptions.maxRetries options)
         (parseInt (orD (env !! "KACHY_MAX_RETRIES") "3"))
  /\ KachyConfig.retryDelay config
     = orD (KachyConfigOptions.retryDelay options)
         (parseFloat (orD (env !! "KACHY_RETRY_DELAY") "1.0"))
  /\ KachyConfig.poolSize config
     = orD (KachyConfigOptions.poolSize options)
         (parseInt (orD (env !! "KACHY_POOL_SIZE") "10"))
  /\ KachyConfig.userAgent config
     = orD (KachyConfigOptions.userAgent options) "kachy-valkey-node/0.1.0"
  /\ match KachyConfigOptions.headers options with
     | Some l => KachyConfig.headers config = l /\ h' = h
     | None =>
         h !! KachyConfig.headers config = None
         /\ h' = <[KachyConfig.headers config :=
                     KachyConfig.default_headers (KachyConfig.userAgent config)]> h
     end.
Proof.
  unfold KachyConfig.constructor.
  destruct key as [k|]; [|discriminate].
  cbn [truthy truthy_option negb]. destruct (truthy k) eqn:Hk; [|discriminate].
  cbn [negb]. destruct (KachyConfigOptions.headers options) as [l|];
    unfold Heap.alloc; intros [= <- <-]; cbn;
    repeat (split; [first [reflexivity | exact Hk]|]).
  - split; reflexivity.
  - split; [|reflexivity]. apply not_elem_of_dom, is_fresh.
Qed.

(** X1. With no options and none of the five configuration variables set
    (or set to the empty string), every non-empty key gives the defaults:
    https://api.klache.net, timeout 30, 3 retries, retry delay 1, pool size
    10, the user agent kachy-valkey-node/0.1.0, and a new headers object
    holding that user agent and the two JSON headers. *)
Theorem constructor_defaults (env : gmap string string) (key : string)
    (h : Heap.heap) :
  key <> EmptyString ->
  (forall v, In v config_variables -> truthy (env !! v) = false) ->
  exists l,
    KachyConfig.constructor env (Some key) KachyConfigOptions.empty h
    = (Ok (KachyConfig.mk key "https://api.klache.net" (int 30) (int 3) (int 1)
             (int 10) "kachy-valkey-node/0.1.0" l),
       <[l := KachyConfig.default_headers "kachy-valkey-node/0.1.0"]> h)
    /\ h !! l = None.
Proof.
  intros Hkey Henv.
  destruct (constructor_succeeds env key KachyConfigOptions.empty h Hkey)
    as (config & h' & Hc & Hk).
  destruct (constructor_inv _ _ _ _ _ _ Hc)
    as (_ & _ & Hurl & Ht & Hr & Hd & Hp & Hua & Hfresh & Hh).
  cbn [KachyConfigOptions.baseUrl KachyConfigOptions.timeout
       KachyConfigOptions.maxRetries KachyConfigOptions.retryDelay
       KachyConfigOptions.poolSize KachyConfigOptions.userAgent
       KachyConfigOptions.empty orD] in Hurl, Ht, Hr, Hd, Hp, Hua.
  unfold orU in Hurl. cbn [truthy truthy_option] in Hurl.
  rewrite orD_falsy in Hurl, Ht, Hr, Hd, Hp
    by (apply Henv; simpl; tauto).
  exists (KachyConfig.headers config). split; [|exact Hfresh].
  rewrite Hc, Hh. destruct config; cbn in *. subst. reflexivity.
Qed.

(** The defaults with an empty environment. *)
Lemma constructor_defaults_witness :
  exists l,
    KachyConfig.constructor ∅ (Some "test-secret") KachyConfigOptions.empty ∅
    = (Ok (KachyConfig.mk "test-secret" "https://api.klache.net" (int 30)
             (int 3) (int 1) (int 10) "kachy-valkey-node/0.1.0" l),
       <[l := KachyConfig.default_headers "kachy-valkey-node/0.1.0"]> ∅)
    /\ (∅ : Heap.heap) !! l = None.
Proof.
  apply (constructor_defaults ∅ "test-secret" ∅).
  - discriminate.
  - intros v _. rewrite lookup_empty. reflexivity.
Defined.

(** X2. Every configuration the constructor returns has a non-empty access
    key (the one it was given), a non-empty base URL and a non-empty user
    agent, whatever the options and the environment; objects already in the
    heap are left as they were, and the headers reference of the
    configuration points to an object whenever a supplied headers reference
    does. *)
Theorem constructor_invariant (env : gmap string string) (key : option string)
    (options : KachyConfigOptions.t) (h h' : Heap.heap)
    (config : KachyConfig.t) :
  KachyConfig.constructor env key options h = (Ok config, h') ->
  key = Some (KachyConfig.accessKey config)
  /\ KachyConfig.accessKey config <> EmptyString
  /\ KachyConfig.baseUrl config <> EmptyString
  /\ KachyConfig.userAgent config <> EmptyString
  /\ (forall l, is_Some (h !! l) -> h' !! l = h !! l)
  /\ ((forall l, KachyConfigOptions.headers options = Some l ->
                 is_Some (h !! l)) ->
      is_Some (h' !! KachyConfig.headers config)).
Proof.
  intros Hc.
  destruct (constructor_inv _ _ _ _ _ _ Hc)
    as (Hkey & Hk & Hurl & _ & _ & _ & _ & Hua & Hh).
  split; [exact Hkey|].
  split; [apply truthy_string_nonempty, Hk|].
  split; [apply truthy_string_nonempty; rewrite Hurl; apply orD_truthy;
          reflexivity|].
  split; [apply truthy_string_nonempty; rewrite Hua; apply orD_truthy;
          reflexivity|].
  destruct (KachyConfigOptions.headers options) as [l0|].
  - destruct Hh as [-> ->]. split; [reflexivity|].
    intros Halloc. apply Halloc. reflexivity.
  - destruct Hh as [Hfresh ->]. split.
    + intros l [x Hx]. apply lookup_insert_ne. intros <-.
      rewrite Hfresh in Hx. discriminate Hx.
    + intros _. rewrite lookup_insert_eq. eexists. reflexivity.
Qed.

(** The invariant on a configuration built from empty strings as options. *)
Lemma constructor_invariant_witness :
  let options :=
    KachyConfigOptions.mk (Some EmptyString) None None None None
      (Some EmptyString) None in
  exists config h',
    KachyConfig.constructor ∅ (Some "key") options ∅ = (Ok config, h')
    /\ KachyConfig.baseUrl config <> EmptyString
    /\ KachyConfig.userAgent config <> EmptyString.
Proof.
  intros options.
  destruct (KachyConfig.constructor ∅ (Some "key") options ∅)
    as [[config|t] h'] eqn:Hc; [|vm_compute in Hc; discriminate Hc].
  exists config, h'. split; [reflexivity|].
  destruct (constructor_invariant _ _ _ _ _ _ Hc) as (_ & _ & Hurl & Hua & _).
  split; assumption.
Defined.

(** X3. When the access-key variable is set and not empty, [fromEnv] returns
    a configuration with that key whose other fields come from the
    environment alone: each of the five variables when it is set and not
    empty (parsed for the numeric ones), else the default; the user agent is
    the default one and the headers are a new object with the default
    headers. *)
Theorem fromEnv_reads_environment (env : gmap string string) (h : Heap.heap)
    (key : string) :
  env !! "KACHY_ACCESS_KEY" = Some key -> key <> EmptyString ->
  exists config h',
    KachyConfig.fromEnv env h = (Ok config, h')
    /\ KachyConfig.accessKey config = key
    /\ Resolves (fun x => x) "https://api.klache.net" None
         (env !! "KACHY_BASE_URL") (KachyConfig.baseUrl config)
    /\ Resolves parseInt (int 30) None (env !! "KACHY_TIMEOUT")
         (KachyConfig.timeout config)
    /\ Resolves parseInt (int 3) None (env !! "KACHY_MAX_RETRIES")
         (KachyConfig.maxRetries config)
    /\ Resolves parseFloat (int 1) None (env !! "KACHY_RETRY_DELAY")
         (KachyConfig.retryDelay config)
    /\ Resolves parseInt (int 10) None (env !! "KACHY_POOL_SIZE")
         (KachyConfig.poolSize config)
    /\ KachyConfig.userAgent config = "kachy-valkey-node/0.1.0"
    /\ h !! KachyConfig.headers config = None
    /\ h' = <[KachyConfig.headers config :=
                KachyConfig.default_headers "kachy-valkey-node/0.1.0"]> h.
Proof.
  intros Hk Hkey.
  destruct (constructor_succeeds env key KachyConfigOptions.empty h Hkey)
    as (config & h' & Hc & Hacc).
  exists config, h'.
  assert (Hfrom : KachyConfig.fromEnv env h = (Ok config, h')).
  { unfold KachyConfig.fromEnv. rewrite Hk.
    replace (truthy (Some key)) with true
      by (symmetry; apply truthy_string_true, Hkey).
    exact Hc. }
  destruct (constructor_inv _ _ _ _ _ _ Hc)
    as (_ & _ & Hurl & Ht & Hr & Hd & Hp & Hua & Hfresh & Hh).
  cbn [KachyConfigOptions.userAgent KachyConfigOptions.empty orD] in Hua.
  split; [exact Hfrom|]. split; [exact Hacc|].
  split; [rewrite Hurl; apply resolves_string|].
  split; [rewrite Ht; apply (resolves_number parseInt None _ "30")|].
  split; [rewrite Hr; apply (resolves_number parseInt None _ "3")|].
  split; [rewrite Hd; apply (resolves_number parseFloat None _ "1.0")|].
  split; [rewrite Hp; apply (resolves_number parseInt None _ "10")|].
  split; [exact Hua|]. split; [exact Hfresh|].
  rewrite Hh, Hua. reflexivity.
Qed.

(** The environment of the repository's test: key and base URL set. *)
Lemma fromEnv_reads_environment_witness :
  let env : gmap string string :=
    <["KACHY_ACCESS_KEY" := "env-secret"]>
      {[ "KACHY_BASE_URL" := "https://env.api.kachy.com" ]} in
  exists config h',
    KachyConfig.fromEnv env ∅ = (Ok config, h')
    /\ KachyConfig.accessKey config = "env-secret"
    /\ KachyConfig.baseUrl config = "https://env.api.kachy.com"
    /\ KachyConfig.timeout config = int 30.
Proof.
  intros env.
  destruct (fromEnv_reads_environment env ∅ "env-secret")
    as (config & h' & Hfrom & Hacc & _); [reflexivity | discriminate |].
  exists config, h'. split; [exact Hfrom|]. split; [exact Hacc|].
  vm_compute in Hfrom. injection Hfrom as <- _. split; reflexivity.
Defined.

(** X4. The snapshot of [toObject] is also safe from later changes of the
    configuration: writing or deleting a header of the configuration after
    the export leaves the snapshot's headers as they were, and a second
    export allocates yet another object, different from the first snapshot's
    and from the configuration's. *)
Theorem toObject_snapshot_is_stable (config : KachyConfig.t) (h : Heap.heap) :
  is_Some (h !! KachyConfig.headers config) ->
  exists o h1 o2 h2,
    KachyConfig.toObject config h = (o, h1)
    /\ KachyConfig.toObject config h1 = (o2, h2)
    /\ (forall k v,
          Heap.read (KachyConfig.p_headers o)
            (Heap.write (KachyConfig.headers config) k v h1)
          = Heap.read (KachyConfig.headers config) h)
    /\ (forall k,
          Heap.read (KachyConfig.p_headers o)
            (Heap.remove (KachyConfig.headers config) k h1)
          = Heap.read (KachyConfig.headers config) h)
    /\ (forall k v,
          Heap.read (KachyConfig.headers config)
            (Heap.write (KachyConfig.headers config) k v h1)
          = <[k := v]> (Heap.read (KachyConfig.headers config) h))
    /\ KachyConfig.p_headers o2 <> KachyConfig.p_headers o
    /\ KachyConfig.p_headers o2 <> KachyConfig.headers config
    /\ Heap.read (KachyConfig.p_headers o2) h2
       = Heap.read (KachyConfig.p_headers o) h2.
Proof.
  intros Halloc. unfold KachyConfig.toObject, Heap.alloc.
  set (l := fresh (dom h)).
  set (m := Heap.read (KachyConfig.headers config) h).
  set (h1 := <[l := m]> h).
  set (l2 := fresh (dom h1)).
  assert (Hfresh : h !! l = None) by apply not_elem_of_dom, is_fresh.
  assert (Hfresh2 : h1 !! l2 = None) by apply not_elem_of_dom, is_fresh.
  assert (Hne : l <> KachyConfig.headers config).
  { intros Heq. rewrite Heq in Hfresh. rewrite Hfresh in Halloc.
    destruct Halloc as [x Hx]. discriminate Hx. }
  assert (Hsame : Heap.read (KachyConfig.headers config) h1 = m).
  { unfold Heap.read, h1. rewrite lookup_insert_ne by exact Hne. reflexivity. }
  assert (Hne2 : l2 <> l).
  { intros Heq. rewrite Heq in Hfresh2. unfold h1 in Hfresh2.
    rewrite lookup_insert_eq in Hfresh2. discriminate Hfresh2. }
  assert (Hne3 : l2 <> KachyConfig.headers config).
  { intros Heq. rewrite Heq in Hfresh2. unfold h1 in Hfresh2.
    rewrite lookup_insert_ne in Hfresh2 by exact Hne.
    rewrite Hfresh2 in Halloc. destruct Halloc as [x Hx]. discriminate Hx. }
  eexists _, _, _, _. split; [reflexivity|]. split; [reflexivity|].
  cbn [KachyConfig.p_headers]. fold h1. fold l2.
  split.
  { intros k v. unfold Heap.read at 1, Heap.write.
    rewrite lookup_alter_ne by congruence. unfold h1.
    rewrite lookup_insert_eq. reflexivity. }
  split.
  { intros k. unfold Heap.read at 1, Heap.remove.
    rewrite lookup_alter_ne by congruence. unfold h1.
    rewrite lookup_insert_eq. reflexivity. }
  split.
  { intros k v. unfold Heap.read at 1, Heap.write.
    rewrite lookup_alter_eq. unfold h1.
    rewrite lookup_insert_ne by exact Hne.
    destruct Halloc as [x Hx]. subst m. unfold Heap.read. rewrite Hx.
    reflexivity. }
  split; [exact Hne2|]. split; [exact Hne3|].
  rewrite Hsame. unfold Heap.read.
  rewrite lookup_insert_eq, lookup_insert_ne by exact Hne2.
  unfold h1. rewrite lookup_insert_eq. reflexivity.
Qed.

(** Changing the user agent header of a configuration after an export. *)
Lemma toObject_snapshot_is_stable_witness :
  let h : Heap.heap := {[ 0%nat := KachyConfig.default_headers "agent" ]} in
  let config :=
    KachyConfig.mk "key" "https://api.klache.net" (int 30) (int 3) (int 1)
      (int 10) "agent" 0%nat in
  exists o h1,
    KachyConfig.toObject config h = (o, h1)
    /\ Heap.read (KachyConfig.p_headers o)
         (Heap.write (KachyConfig.headers config) "User-Agent" "other" h1)
       = KachyConfig.default_headers "agent".
Proof.
  intros h config.
  destruct (toObject_snapshot_is_stable config h)
    as (o & h1 & _ & _ & Hto & _ & Hw & _).
  - exists (KachyConfig.default_headers "agent"). reflexivity.
  - exists o, h1. split; [exact Hto|]. rewrite Hw. reflexivity.
Defined.

(** X5. A snapshot can be given back as the options of a constructor call:
    when the numeric fields of the configuration are truthy and its strings
    are not empty, the new configuration has the same access key, base URL,
    timeout, retries, retry delay, pool size and user agent whatever the
    environment says, and its headers are the snapshot's headers object. *)
Theorem toObject_round_trip (env : gmap string string)
    (config : KachyConfig.t) (h : Heap.heap) :
  KachyConfig.accessKey config <> EmptyString ->
  KachyConfig.baseUrl config <> EmptyString ->
  KachyConfig.userAgent config <> EmptyString ->
  truthy (KachyConfig.timeout config) = true ->
  truthy (KachyConfig.maxRetries config) = true ->
  truthy (KachyConfig.retryDelay config) = true ->
  truthy (KachyConfig.poolSize config) = true ->
  exists o h1,
    KachyConfig.toObject config h = (o, h1)
    /\ KachyConfig.constructor env (Some (KachyConfig.p_accessKey o))
         (options_of_plain o) h1
       = (Ok (KachyConfig.mk (KachyConfig.accessKey config)
                (KachyConfig.baseUrl config) (KachyConfig.timeout config)
                (KachyConfig.maxRetries config) (KachyConfig.retryDelay config)
                (KachyConfig.poolSize config) (KachyConfig.userAgent config)
                (KachyConfig.p_headers o)),
          h1).
Proof.
  intros Hkey Hurl Hua Ht Hr Hd Hp.
  unfold KachyConfig.toObject, Heap.alloc.
  eexists _, _. split; [reflexivity|].
  unfold KachyConfig.constructor, options_of_plain.
  cbn [KachyConfig.p_accessKey KachyConfig.p_baseUrl KachyConfig.p_timeout
       KachyConfig.p_maxRetries KachyConfig.p_retryDelay KachyConfig.p_poolSize
       KachyConfig.p_userAgent KachyConfig.p_headers
       KachyConfigOptions.baseUrl KachyConfigOptions.timeout
       KachyConfigOptions.maxRetries KachyConfigOptions.retryDelay
       KachyConfigOptions.poolSize KachyConfigOptions.userAgent
       KachyConfigOptions.headers].
  apply truthy_string_true in Hkey, Hurl, Hua.
  unfold orU. cbn [truthy truthy_option]. rewrite Hkey, Hurl. cbn [negb].
  rewrite !orD_Some_truthy by assumption. reflexivity.
Qed.

(** A default configuration rebuilt from its snapshot under an environment
    that sets another timeout. *)
Lemma toObject_round_trip_witness :
  let h : Heap.heap := {[ 0%nat := KachyConfig.default_headers "agent" ]} in
  let env : gmap string string := {[ "KACHY_TIMEOUT" := "60" ]} in
  let config :=
    KachyConfig.mk "key" "https://api.klache.net" (int 30) (int 3) (int 1)
      (int 10) "agent" 0%nat in
  exists o h1 config',
    KachyConfig.toObject config h = (o, h1)
    /\ KachyConfig.constructor env (Some (KachyConfig.p_accessKey o))
         (options_of_plain o) h1 = (Ok config', h1)
    /\ KachyConfig.timeout config' = int 30.
Proof.
  intros h env config.
  destruct (toObject_round_trip env config h)
    as (o & h1 & Hto & Hc); try discriminate; try reflexivity.
  exists o, h1. eexists. split; [exact Hto|]. split; [exact Hc|]. reflexivity.
Defined.

(** *** Client *)

Lemma Qred_inject_Z (z : Z) : Qred (inject_Z z) = inject_Z z.
Proof.
  unfold Qred, inject_Z.
  pose proof (Z.ggcd_gcd z 1) as Hg.
  pose proof (Z.ggcd_correct_divisors z 1) as Hd.
  destruct (Z.ggcd z 1) as [g [a b]]. cbn [fst snd] in *.
  rewrite Z.gcd_1_r in Hg. subst g. destruct Hd as [Ha Hb].
  rewrite Z.mul_1_l in Ha, Hb. subst a b. reflexivity.
Qed.

Lemma mul_int (a b : Z) : mul (int a) (int b) = int (a * b).
Proof.
  unfold mul, int. f_equal.
  replace (inject_Z a * inject_Z b)%Q with (inject_Z (a * b)).
  - apply Qred_inject_Z.
  - unfold Qmult, inject_Z. reflexivity.
Qed.



(** X7. The retry count, the retry delay, the pool size and the user-agent
    field of a configuration have no effect on any operation: two
    configurations that agree on the access key, the base URL, the timeout
    and the headers object send the same request and give the same outcome.
    In particular a rejected request is sent once, never again. *)
Theorem retry_settings_are_unused {W}
    (transport : AxiosRequestConfig -> W -> Settled * W)
    (config1 config2 : KachyConfig.t) (h : Heap.heap) (op : Operation)
    (s : NetState W) :
  KachyConfig.accessKey config1 = KachyConfig.accessKey config2 ->
  KachyConfig.baseUrl config1 = KachyConfig.baseUrl config2 ->
  KachyConfig.timeout config1 = KachyConfig.timeout config2 ->
  KachyConfig.headers config1 = KachyConfig.headers config2 ->
  perform transport (KachyClient.constructor config1 h) op s
  = perform transport (KachyClient.constructor config2 h) op s
  /\ length (sent (snd (perform transport (KachyClient.constructor config1 h)
                          op s)))
     = S (length (sent s)).
Proof.
  intros Hk Hu Ht Hh. rewrite !perform_run.
  assert (Hw : forall c, wire config1 h c = wire config2 h c).
  { intros c. unfold wire, KachyClient.createHttpClient, KachyClient.authenticate.
    cbn. rewrite Hk, Hu, Ht, Hh. reflexivity. }
  rewrite Hw. split; [reflexivity|].
  cbn [snd sent]. rewrite length_app. simpl. lia.
Qed.

(** Ten retries against a server that refuses: one request, as with none. *)
Lemma retry_settings_are_unused_witness :
  let transport := fun (_ : AxiosRequestConfig) (w : unit) =>
    (Rejected (mkAxiosError None (Some "ECONNREFUSED") "connect ECONNREFUSED"),
     w) in
  let config retries :=
    KachyConfig.mk "key" "https://api.klache.net" (int 30) (int retries)
      (int 1) (int 10) "agent" 0%nat in
  perform transport (KachyClient.constructor (config 10%Z) ∅) (OpGet "k")
    (mkNet tt [])
  = perform transport (KachyClient.constructor (config 0%Z) ∅) (OpGet "k")
      (mkNet tt [])
  /\ length (sent (snd (perform transport
                          (KachyClient.constructor (config 10%Z) ∅) (OpGet "k")
                          (mkNet tt []))))
     = 1%nat.
Proof.
  intros transport config.
  apply (retry_settings_are_unused transport (config 10%Z) (config 0%Z) ∅
           (OpGet "k") (mkNet tt [])); reflexivity.
Defined.

(** What any operation sends and what it returns on an object body. *)
Lemma operation_run {W} (transport : AxiosRequestConfig -> W -> Settled * W)
    (config : KachyConfig.t) (h : Heap.heap) (op : Operation) (s : NetState W) :
  exists req,
    sent (snd (perform transport (KachyClient.constructor config h) op s))
    = sent s ++ [req]
    /\ method req = method (request_of op)
    /\ url req = url (request_of op)
    /\ data req = data (request_of op)
    /\ (forall r fields,
          fst (transport req (world s)) = Fulfilled r ->
          response_data r = JObj fields ->
          fst (perform transport (KachyClient.constructor config h) op s)
          = Ok (lookup_field (field_of op) fields)).
Proof.
  exists (wire config h (request_of op)). rewrite perform_run.
  split; [reflexivity|].
  split; [destruct op; reflexivity|].
  split; [destruct op; reflexivity|].
  split; [destruct op as [? ? [?|]| | | | | |]; reflexivity|].
  intros r fields Hr Hdata. cbn [fst]. rewrite Hr, Hdata. reflexivity.
Qed.

(** X8. [get], [delete], [exists] and [ttl] each send one request without a
    body, a GET (DELETE for [delete]) to /valkey/get/, /valkey/del/,
    /valkey/exists/ or /valkey/ttl/ followed by the percent-encoded key;
    [expire] posts [{key, seconds}] to /valkey/expire.  On a fulfilled
    request each returns its field of the body (value, deleted, exists, ttl,
    success) as it is, so a [get] answered with [{value: null}] returns
    [null] and does not throw. *)
Theorem key_operations {W}
    (transport : AxiosRequestConfig -> W -> Settled * W)
    (config : KachyConfig.t) (h : Heap.heap) (key : string) (seconds : number)
    (s : NetState W) :
  let this := KachyClient.constructor config h in
  let sends (run : Async W JsVal) (m u field : string) (d : option JsVal) :=
    exists req,
      sent (snd (run s)) = sent s ++ [req]
      /\ method req = Some m /\ url req = Some u /\ data req = d
      /\ forall r fields,
          fst (transport req (world s)) = Fulfilled r ->
          response_data r = JObj fields ->
          fst (run s) = Ok (lookup_field field fields) in
  sends (KachyClient.get transport this key) "GET"
    ("/valkey/get/" +:+ encodeURIComponent key) "value" None
  /\ sends (KachyClient.delete transport this key) "DELETE"
       ("/valkey/del/" +:+ encodeURIComponent key) "deleted" None
  /\ sends (KachyClient.exists_ transport this key) "GET"
       ("/valkey/exists/" +:+ encodeURIComponent key) "exists" None
  /\ sends (KachyClient.ttl transport this key) "GET"
       ("/valkey/ttl/" +:+ encodeURIComponent key) "ttl" None
  /\ sends (KachyClient.expire transport this key seconds) "POST"
       "/valkey/expire" "success"
       (Some (JObj [("key", JStr key); ("seconds", JNum seconds)]))
  /\ (forall r,
        fst (transport (wire config h (request_of (OpGet key))) (world s))
        = Fulfilled r ->
        response_data r = JObj [("value", JNull)] ->
        fst (KachyClient.get transport this key s) = Ok JNull).
Proof.
  intros this sends. subst this sends. cbv beta.
  split; [exact (operation_run transport config h (OpGet key) s)|].
  split; [exact (operation_run transport config h (OpDelete key) s)|].
  split; [exact (operation_run transport config h (OpExists key) s)|].
  split; [exact (operation_run transport config h (OpTtl key) s)|].
  split; [exact (operation_run transport config h (OpExpire key seconds) s)|].
  intros r Hr Hdata.
  change (KachyClient.get transport (KachyClient.constructor config h) key s)
    with (perform transport (KachyClient.constructor config h) (OpGet key) s).
  rewrite perform_run. cbn [fst]. rewrite Hr, Hdata. reflexivity.
Qed.

(** A [get] of a key the server does not hold. *)
Lemma key_operations_witness :
  let transport := fun (_ : AxiosRequestConfig) (w : unit) =>
    (Fulfilled (mkResponse 200 "OK" (JObj [("value", JNull)])), w) in
  let config :=
    KachyConfig.mk "key" "https://api.klache.net" (int 30) (int 3) (int 1)
      (int 10) "agent" 0%nat in
  fst (KachyClient.get transport (KachyClient.constructor config ∅)
         "non-existent" (mkNet tt []))
  = Ok JNull.
Proof.
  intros transport config.
  destruct (key_operations transport config ∅ "non-existent" (int 0)
              (mkNet tt [])) as (_ & _ & _ & _ & _ & Hnull).
  apply (Hnull (mkResponse 200 "OK" (JObj [("value", JNull)]))); reflexivity.
Defined.

(** The characters of an encoded key. *)
Lemma hex_digit_unreserved (c : ascii) :
  is_unreserved (hex_digit (nat_of_ascii c / 16)) = true
  /\ is_unreserved (hex_digit (nat_of_ascii c mod 16)) = true.
Proof. destruct c as [[] [] [] [] [] [] [] []]; split; reflexivity. Qed.

Lemma encodeURIComponent_alphabet (s : string) :
  forallb (fun c => is_unreserved c || Ascii.eqb c "%")
    (list_ascii_of_string (encodeURIComponent s))
  = true.
Proof.
  induction s as [|c s IH]; [reflexivity|].
  cbn [encodeURIComponent]. destruct (is_unreserved c) eqn:Hc.
  - cbn [list_ascii_of_string forallb]. rewrite Hc, IH. reflexivity.
  - destruct (hex_digit_unreserved c) as [H1 H2].
    cbn [list_ascii_of_string forallb]. rewrite H1, H2, IH. reflexivity.
Qed.

Lemma hex_digit_inj (a b : nat) :
  (a < 16)%nat -> (b < 16)%nat -> hex_digit a = hex_digit b -> a = b.
Proof.
  intros Ha Hb Heq.
  assert (Hall : forallb (fun x => forallb (fun y =>
                    implb (Ascii.eqb (hex_digit x) (hex_digit y)) (x =? y)%nat)
                    (seq 0 16)) (seq 0 16) = true) by reflexivity.
  rewrite forallb_forall in Hall.
  specialize (Hall a). rewrite forallb_forall in Hall.
  assert (Hin : forall n, (n < 16)%nat -> In n (seq 0 16)).
  { intros n Hn. apply in_seq. lia. }
  specialize (Hall (Hin a Ha) b (Hin b Hb)).
  rewrite Heq, Ascii.eqb_refl in Hall. apply Nat.eqb_eq. exact Hall.
Qed.

Lemma hex_pair_inj (c1 c2 : ascii) :
  hex_digit (nat_of_ascii c1 / 16) = hex_digit (nat_of_ascii c2 / 16) ->
  hex_digit (nat_of_ascii c1 mod 16) = hex_digit (nat_of_ascii c2 mod 16) ->
  c1 = c2.
Proof.
  intros Hhi Hlo.
  pose proof (nat_ascii_bounded c1) as B1.
  pose proof (nat_ascii_bounded c2) as B2.
  apply hex_digit_inj in Hhi;
    [| apply Nat.Div0.div_lt_upper_bound; lia
     | apply Nat.Div0.div_lt_upper_bound; lia].
  apply hex_digit_inj in Hlo; [| apply Nat.mod_upper_bound; lia
                               | apply Nat.mod_upper_bound; lia].
  rewrite <- (ascii_nat_embedding c1), <- (ascii_nat_embedding c2).
  f_equal.
  rewrite (Nat.div_mod_eq (nat_of_ascii c1) 16),
    (Nat.div_mod_eq (nat_of_ascii c2) 16), Hhi, Hlo.
  reflexivity.
Qed.

Lemma encodeURIComponent_inj (s1 s2 : string) :
  encodeURIComponent s1 = encodeURIComponent s2 -> s1 = s2.
Proof.
  revert s2. induction s1 as [|c1 s1 IH]; intros [|c2 s2]; cbn [encodeURIComponent].
  - reflexivity.
  - destruct (is_unreserved c2); discriminate.
  - destruct (is_unreserved c1); discriminate.
  - destruct (is_unreserved c1) eqn:H1, (is_unreserved c2) eqn:H2.
    + intros [= -> Htail]. f_equal. apply IH, Htail.
    + intros [= -> _]. discriminate H1.
    + intros [= <- _]. discriminate H2.
    + intros [= Hhi Hlo Htail].
      rewrite (hex_pair_inj c1 c2 Hhi Hlo). f_equal. apply IH, Htail.
Qed.



Lemma get_prop_outcome (v : JsVal) (k : string) :
  match v with
  | JUndefined | JNull =>
      exists msg, get_prop v k = throw_new TypeError msg
  | _ => exists x, get_prop v k = Ok x
  end.
Proof. destruct v; eexists; reflexivity. Qed.



(** *** Pipeline *)

Lemma queue_commands {C} (p : KachyPipeline.t C) (m : Mutation) :
  queue p m
  = KachyPipeline.mk (KachyPipeline.client p)
      (KachyPipeline.commands p ++ [command_of m]).
Proof. destruct m as [? ? [?|]| | | | | |]; reflexivity. Qed.

Lemma command_of_upper (m : Mutation) :
  no_lower (KachyPipeline.command (command_of m)) = true.
Proof.
  destruct m as [? ? [?|]| | | | | |]; try reflexivity.
  apply toUpperCase_no_lower.
Qed.

Lemma toUpperCase_fixpoint (s : string) :
  no_lower s = true -> toUpperCase s = s.
Proof.
  unfold no_lower. induction s as [|c s IH]; [reflexivity|].
  cbn [list_ascii_of_string forallb toUpperCase].
  intros [Hc Hs]%andb_true_iff. rewrite (IH Hs). f_equal.
  unfold upper_ascii. apply negb_true_iff in Hc. rewrite Hc. reflexivity.
Qed.

Lemma chain_eq {C} (p : KachyPipeline.t C) (ms : list Mutation) :
  chain p ms
  = KachyPipeline.mk (KachyPipeline.client p)
      (KachyPipeline.commands p ++ List.map command_of ms).
Proof.
  unfold chain. revert p. induction ms as [|m ms IH]; intros p.
  - cbn. rewrite app_nil_r. destruct p; reflexivity.
  - cbn [fold_left List.map]. rewrite IH, queue_commands.
    cbn [KachyPipeline.client KachyPipeline.commands].
    rewrite <- app_assoc. reflexivity.
Qed.

(** X11. Mutators compose: a chain of calls appends one command per call,
    in call order, after the commands already queued, and leaves the client
    as it was; the length grows by the number of calls.  Every command so
    queued has an upper-case name, so the request that [execute] sends for it
    names the command exactly as it was queued. *)
Theorem chain_appends_commands {C} (p : KachyPipeline.t C)
    (ms : list Mutation) :
  KachyPipeline.commands (chain p ms)
  = KachyPipeline.commands p ++ List.map command_of ms
  /\ KachyPipeline.client (chain p ms) = KachyPipeline.client p
  /\ KachyPipeline.length (chain p ms)
     = (KachyPipeline.length p + length ms)%nat
  /\ (forall m config h,
        In m ms ->
        data (exec_request config h (command_of m))
        = Some (JObj [("command", JStr (KachyPipeline.command (command_of m)));
                      ("args", JArr (KachyPipeline.args (command_of m)))])).
Proof.
  rewrite chain_eq. split; [reflexivity|]. split; [reflexivity|].
  split.
  { unfold KachyPipeline.length. cbn [KachyPipeline.commands].
    rewrite length_app, length_map. reflexivity. }
  intros m config h _. unfold exec_request.
  rewrite (toUpperCase_fixpoint _ (command_of_upper m)).
  apply wire_call.
Qed.

(** The chain of the README: three [set] calls on a new pipeline. *)
Lemma chain_appends_commands_witness :
  let p := chain (KachyPipeline.constructor tt)
             [MSet "batch:1" "value1" None; MSet "batch:2" "value2" None;
              MRedis "hmget" [JStr "h"; JStr "f"]] in
  KachyPipeline.length p = 3%nat
  /\ List.map KachyPipeline.command (KachyPipeline.commands p)
     = ["SET"; "SET"; "HMGET"].
Proof.
  intros p.
  destruct (chain_appends_commands (KachyPipeline.constructor tt)
              [MSet "batch:1" "value1" None; MSet "batch:2" "value2" None;
               MRedis "hmget" [JStr "h"; JStr "f"]])
    as (Hcmds & _ & Hlen & _).
  split; [exact Hlen|]. subst p. rewrite Hcmds. reflexivity.
Defined.

(** X12. [clear] discards the queue without running it: whatever was
    queued, executing a cleared pipeline returns the empty array and leaves
    the network as it was, and commands queued after [clear] start a new
    queue. *)
Theorem clear_discards_commands {W C}
    (client_redis : C -> string -> list JsVal -> Async W JsVal)
    (p : KachyPipeline.t C) (ms : list Mutation) (s : NetState W) :
  KachyPipeline.length (KachyPipeline.clear p) = 0%nat
  /\ KachyPipeline.execute client_redis (KachyPipeline.clear p) s
     = (Ok [], KachyPipeline.clear p, s)
  /\ KachyPipeline.commands (chain (KachyPipeline.clear p) ms)
     = List.map command_of ms.
Proof.
  split; [reflexivity|]. split; [reflexivity|].
  rewrite chain_eq. reflexivity.
Qed.

(** X13. A pipeline can be used again after [execute]: commands chained on
    the executed pipeline form a queue of their own, and the second
    [execute] sends requests for these alone, none for the first batch. *)
Theorem pipeline_is_reusable {W}
    (transport : AxiosRequestConfig -> W -> Settled * W)
    (config : KachyConfig.t) (h : Heap.heap)
    (cmds : list KachyPipeline.PipelineCommand) (ms : list Mutation)
    (s : NetState W) :
  cmds <> [] -> ms <> [] ->
  let this := KachyClient.constructor config h in
  exists r1 p1 s1 r2 p2 s2,
    KachyClient.execute transport (KachyPipeline.mk this cmds) s = (Ok r1, p1, s1)
    /\ KachyClient.execute transport (chain p1 ms) s1 = (Ok r2, p2, s2)
    /\ sent s1 = sent s ++ List.map (exec_request config h) cmds
    /\ sent s2
       = sent s1 ++ List.map (exec_request config h) (List.map command_of ms)
    /\ length r1 = length cmds
    /\ length r2 = length ms
    /\ KachyPipeline.length p2 = 0%nat.
Proof.
  intros Hcmds Hms this.
  destruct (execute_run transport config h cmds s Hcmds)
    as (r1 & s1 & Hexec1 & Hrep1).
  destruct (execute_run transport config h (List.map command_of ms) s1)
    as (r2 & s2 & Hexec2 & Hrep2).
  { destruct ms; [congruence | discriminate]. }
  exists r1, (KachyPipeline.mk this []), s1, r2, (KachyPipeline.mk this []), s2.
  split; [exact Hexec1|].
  split; [rewrite chain_eq; exact Hexec2|].
  split; [eapply Replayed_sent, Hrep1|].
  split; [eapply Replayed_sent, Hrep2|].
  split; [eapply Replayed_length, Hrep1|].
  split; [|reflexivity].
  rewrite (Replayed_length _ _ _ _ _ _ Hrep2), length_map. reflexivity.
Qed.

(** Two batches on one pipeline: three requests in all, one per command. *)
Lemma pipeline_is_reusable_witness :
  let transport := fun (_ : AxiosRequestConfig) (w : unit) =>
    (Fulfilled (mkResponse 200 "OK" (JObj [("result", JStr "OK")])), w) in
  let config :=
    KachyConfig.mk "key" "https://api.klache.net" (int 30) (int 3) (int 1)
      (int 10) "agent" 0%nat in
  let this := KachyClient.constructor config ∅ in
  let cmds := [KachyPipeline.mkCommand "SET" [JStr "a"; JStr "1"];
               KachyPipeline.mkCommand "SET" [JStr "b"; JStr "2"]] in
  exists r1 p1 s1 r2 p2 s2,
    KachyClient.execute transport (KachyPipeline.mk this cmds) (mkNet tt [])
    = (Ok r1, p1, s1)
    /\ KachyClient.execute transport (chain p1 [MGet "a"]) s1 = (Ok r2, p2, s2)
    /\ length (sent s1) = 2%nat
    /\ length (sent s2) = 3%nat.
Proof.
  intros transport config this cmds.
  destruct (pipeline_is_reusable transport config ∅ cmds [MGet "a"]
              (mkNet tt []))
    as (r1 & p1 & s1 & r2 & p2 & s2 & H1 & H2 & Hs1 & Hs2 & _);
    [discriminate | discriminate |].
  exists r1, p1, s1, r2, p2, s2. split; [exact H1|]. split; [exact H2|].
  rewrite Hs2, Hs1. split; reflexivity.
Defined.

Lemma redis_upper {W} (transport : AxiosRequestConfig -> W -> Settled * W)
    (this : KachyClient.t) (name : string) (args : list JsVal) :
  KachyClient.redis transport this (toUpperCase name) args
  = KachyClient.redis transport this name args.
Proof. unfold KachyClient.redis. rewrite toUpperCase_idempotent. reflexivity. Qed.

(** X14. A raw command queued alone on a pipeline of a client does what the
    same raw command on the client does: the same request, the same network
    state afterwards, and the one result is the value the direct call
    returns, or [{error: message}] for the error the direct call throws. *)
Theorem pipelined_raw_command_matches_direct {W}
    (transport : AxiosRequestConfig -> W -> Settled * W)
    (config : KachyConfig.t) (h : Heap.heap) (name : string)
    (args : list JsVal) (s : NetState W) :
  let this := KachyClient.constructor config h in
  let p := KachyPipeline.redis (KachyClient.pipeline this) name args in
  exists s',
    snd (KachyClient.redis transport this name args s) = s'
    /\ ((exists v,
            KachyClient.redis transport this name args s = (Ok v, s')
            /\ KachyClient.execute transport p s
               = (Ok [v], KachyPipeline.clear p, s'))
        \/ (exists e,
              KachyClient.redis transport this name args s
              = (Throw (ThrowError e), s')
              /\ KachyClient.execute transport p s
                 = (Ok [JObj [("error", JStr (message e))]],
                    KachyPipeline.clear p, s'))).
Proof.
  intros this p. subst p.
  unfold KachyClient.execute, KachyPipeline.execute, KachyClient.pipeline,
    KachyPipeline.redis, KachyPipeline.constructor, KachyPipeline.push,
    KachyPipeline.clear.
  cbn [KachyPipeline.commands KachyPipeline.client app List.length Nat.eqb
       KachyPipeline.replay KachyPipeline.command KachyPipeline.args].
  unfold bind at 1, try_catch, bind, ret, lift. rewrite redis_upper.
  destruct (KachyClient.redis transport this name args s) as [[v|t] s'] eqn:Hrun.
  - exists s'. split; [reflexivity|]. left. exists v. split; reflexivity.
  - destruct (redis_throws_errors transport config h name args s s' t Hrun)
      as [e ->].
    exists s'. split; [reflexivity|]. right. exists e. split; reflexivity.
Qed.

(** [redis("hmget", ...)] through a pipeline and directly. *)
Lemma pipelined_raw_command_matches_direct_witness :
  let transport := fun (_ : AxiosRequestConfig) (w : unit) =>
    (Fulfilled (mkResponse 200 "OK" (JObj [("result", JArr [JStr "v"])])), w) in
  let config :=
    KachyConfig.mk "key" "https://api.klache.net" (int 30) (int 3) (int 1)
      (int 10) "agent" 0%nat in
  let this := KachyClient.constructor config ∅ in
  let p := KachyPipeline.redis (KachyClient.pipeline this) "hmget" [JStr "h"] in
  fst (fst (KachyClient.execute transport p (mkNet tt [])))
  = Ok [JArr [JStr "v"]].
Proof.
  intros transport config this p.
  destruct (pipelined_raw_command_matches_direct transport config ∅ "hmget"
              [JStr "h"] (mkNet tt []))
    as (s' & _ & [(v & Hdirect & Hexec) | (e & Hdirect & _)]).
  - fold this in Hexec. fold p in Hexec. rewrite Hexec.
    vm_compute in Hdirect. injection Hdirect as <- _. reflexivity.
  - vm_compute in Hdirect. discriminate Hdirect.
Defined.

(** The replay loop against a transport that answers 401 to everything. *)
Lemma replay_unauthorized {W}
    (transport : AxiosRequestConfig -> W -> Settled * W)
    (config : KachyConfig.t) (h : Heap.heap) :
  (forall req w, exists error r,
      fst (transport req w) = Rejected error
      /\ response error = Some r /\ status r = 401%Z) ->
  forall cmds acc s,
  exists s',
    KachyPipeline.replay (KachyClient.redis transport)
      (KachyClient.constructor config h) cmds acc s
    = (Ok (acc ++ repeat (JObj [("error", JStr "Authentication failed")])
                    (length cmds)), s')
    /\ sent s' = sent s ++ List.map (exec_request config h) cmds.
Proof.
  intros Hdeny cmds. induction cmds as [|cmd rest IH]; intros acc s.
  - exists s. rewrite !app_nil_r. split; reflexivity.
  - cbn [KachyPipeline.replay]. unfold bind at 1, try_catch, bind, ret, lift.
    change (KachyClient.redis transport (KachyClient.constructor config h)
              (KachyPipeline.command cmd) (KachyPipeline.args cmd) s)
      with (perform transport (KachyClient.constructor config h)
              (OpRedis (KachyPipeline.command cmd) (KachyPipeline.args cmd)) s).
    rewrite perform_run.
    destruct (Hdeny (wire config h (request_of
                (OpRedis (KachyPipeline.command cmd) (KachyPipeline.args cmd))))
                (world s)) as (error & r & -> & Hr & H401).
    rewrite (on_rejected_http error r Hr) by lia.
    rewrite H401. cbn [Z.eqb Pos.eqb throw_new thrown_message message].
    match goal with
    | |- context [KachyPipeline.replay _ _ rest ?a ?st] =>
        destruct (IH a st) as (s2 & Hrest & Hsent)
    end.
    exists s2. rewrite Hrest, <- app_assoc. split; [reflexivity|].
    rewrite Hsent. cbn [sent List.map]. rewrite <- app_assoc.
    destruct cmd. reflexivity.
Qed.

(** X15. A rejected credential does not stop a pipeline: when the server
    answers 401 to every request, [execute] still sends one request per
    queued command, returns normally, and reports
    [{error: "Authentication failed"}] at every position. *)
Theorem unauthorized_pipeline_reports_each_command {W}
    (transport : AxiosRequestConfig -> W -> Settled * W)
    (config : KachyConfig.t) (h : Heap.heap)
    (cmds : list KachyPipeline.PipelineCommand) (s : NetState W) :
  (forall req w, exists error r,
      fst (transport req w) = Rejected error
      /\ response error = Some r /\ status r = 401%Z) ->
  cmds <> [] ->
  let p := KachyPipeline.mk (KachyClient.constructor config h) cmds in
  exists s',
    KachyClient.execute transport p s
    = (Ok (repeat (JObj [("error", JStr "Authentication failed")])
             (length cmds)),
       KachyPipeline.clear p, s')
    /\ sent s' = sent s ++ List.map (exec_request config h) cmds.
Proof.
  intros Hdeny Hne p.
  destruct (replay_unauthorized transport config h Hdeny cmds [] s)
    as (s' & Hrun & Hsent).
  exists s'. split; [|exact Hsent].
  unfold p, KachyClient.execute, KachyPipeline.execute.
  cbn [KachyPipeline.commands KachyPipeline.client].
  destruct cmds as [|cmd rest]; [congruence|].
  cbn [List.length Nat.eqb]. rewrite Hrun. reflexivity.
Qed.

(** Two commands with a key the server rejects. *)
Lemma unauthorized_pipeline_reports_each_command_witness :
  let transport := fun (_ : AxiosRequestConfig) (w : unit) =>
    (Rejected (mkAxiosError
                 (Some (mkResponse 401 "Unauthorized" JNull))
                 (Some "ERR_BAD_REQUEST") "Request failed with status code 401"),
     w) in
  let config :=
    KachyConfig.mk "wrong" "https://api.klache.net" (int 30) (int 3) (int 1)
      (int 10) "agent" 0%nat in
  let cmds := [KachyPipeline.mkCommand "GET" [JStr "a"];
               KachyPipeline.mkCommand "GET" [JStr "b"]] in
  exists p' s',
    KachyClient.execute transport
      (KachyPipeline.mk (KachyClient.constructor config ∅) cmds) (mkNet tt [])
    = (Ok [JObj [("error", JStr "Authentication failed")];
           JObj [("error", JStr "Authentication failed")]], p', s')
    /\ length (sent s') = 2%nat.
Proof.
  intros transport config cmds.
  destruct (unauthorized_pipeline_reports_each_command transport config ∅ cmds
              (mkNet tt []))
    as (s' & Hexec & Hsent).
  - intros req w. eexists _, _. split; [reflexivity|]. split; reflexivity.
  - discriminate.
  - eexists _, s'. split; [exact Hexec|]. rewrite Hsent. reflexivity.
Defined.

(** *** The module-level client *)

(** X16. Without a global client (before [init], and after [close]) every
    convenience function throws
    [Error "Kachy client not initialized. Call kachy.init() first."] and
    sends nothing, and so does [pipeline()]; [close] can be called any number
    of times. *)
Theorem convenience_requires_init {W}
    (transport : AxiosRequestConfig -> W -> Settled * W)
    (globalClient : Index.global) (op : Operation) (s : NetState W) :
  let not_initialized {A} : Except A :=
    throw_new Error "Kachy client not initialized. Call kachy.init() first." in
  perform_global transport Index.initial op s = (not_initialized, s)
  /\ perform_global transport (Index.close globalClient) op s
     = (not_initialized, s)
  /\ Index.pipeline (Index.close globalClient) = not_initialized
  /\ Index.getClient (Index.close globalClient) = not_initialized
  /\ Index.close (Index.close globalClient) = Index.close globalClient.
Proof.
  assert (Hclose : Index.close globalClient = None)
    by (destruct globalClient; reflexivity).
  rewrite Hclose. cbv zeta.
  repeat split; destruct op; reflexivity.
Qed.

Lemma perform_global_some {W}
    (transport : AxiosRequestConfig -> W -> Settled * W)
    (client : KachyClient.t) (op : Operation) :
  perform_global transport (Some client) op = perform transport client op.
Proof. destruct op; reflexivity. Qed.

(** X17. [init] with an absent or empty key throws the missing-credential
    error and leaves the global client as it was, so a client installed
    earlier keeps serving.  With a non-empty key it installs and returns a
    client for that key, replacing any earlier one; from then on each
    convenience function is the operation of that client, and its request
    carries "Bearer " followed by the key. *)
Theorem init_installs_client {W}
    (transport : AxiosRequestConfig -> W -> Settled * W)
    (env : gmap string string) (options : KachyConfigOptions.t)
    (globalClient : Index.global) (h : Heap.heap) :
  (forall key, key = None \/ key = Some EmptyString ->
     Index.init env key options globalClient h
     = (throw_new Error "KACHY_ACCESS_KEY is required", globalClient, h))
  /\ (forall key, key <> EmptyString ->
        exists config h',
          KachyConfig.constructor env (Some key) options h = (Ok config, h')
          /\ KachyConfig.accessKey config = key
          /\ Index.init env (Some key) options globalClient h
             = (Ok (KachyClient.constructor config h'),
                Some (KachyClient.constructor config h'), h')
          /\ forall op (s : NetState W),
              perform_global transport
                (Some (KachyClient.constructor config h')) op s
              = perform transport (KachyClient.constructor config h') op s
              /\ exists req,
                  sent (snd (perform_global transport
                               (Some (KachyClient.constructor config h')) op s))
                  = sent s ++ [req]
                  /\ headers req !! "Authorization" = Some ("Bearer " +:+ key)).
Proof.
  split.
  { intros key [-> | ->]; reflexivity. }
  intros key Hkey.
  destruct (constructor_succeeds env key options h Hkey)
    as (config & h' & Hc & Hacc).
  exists config, h'. split; [exact Hc|]. split; [exact Hacc|].
  split; [unfold Index.init; rewrite Hc; reflexivity|].
  intros op s. rewrite perform_global_some. split; [reflexivity|].
  exists (wire config h' (request_of op)). rewrite perform_run.
  split; [reflexivity|].
  rewrite wire_headers, lookup_insert_eq, Hacc. reflexivity.
Qed.

(** [init] with the empty key after a successful [init]: the first client
    stays installed. *)
Lemma init_installs_client_witness :
  let transport := fun (_ : AxiosRequestConfig) (w : unit) =>
    (Fulfilled (mkResponse 200 "OK" (JObj [("value", JStr "v")])), w) in
  exists client h' g,
    Index.init ∅ (Some "first") KachyConfigOptions.empty Index.initial ∅
    = (Ok client, Some client, h')
    /\ Index.init ∅ (Some EmptyString) KachyConfigOptions.empty (Some client) h'
       = (throw_new Error "KACHY_ACCESS_KEY is required", g, h')
    /\ g = Some client.
Proof.
  intros transport.
  destruct (init_installs_client transport ∅ KachyConfigOptions.empty
              Index.initial ∅) as (_ & Hgood).
  destruct (Hgood "first") as (config & h' & _ & _ & Hinit & _); [discriminate|].
  exists (KachyClient.constructor config h'), h',
    (Some (KachyClient.constructor config h')).
  split; [exact Hinit|]. split; [|reflexivity].
  destruct (init_installs_client transport ∅ KachyConfigOptions.empty
              (Some (KachyClient.constructor config h')) h') as (Hbad & _).
  apply Hbad. right. reflexivity.
Defined.

(** *** Numbers in the environment *)

Lemma take_digits_acc (u : Decimal.uint) : forall (c : nat) (p : positive),
  take_digits (NilEmpty.string_of_uint u) c (Z.pos p)
  = ((c + Decimal.nb_digits u)%nat, Z.pos (Pos.of_uint_acc u p), EmptyString).
Proof.
  induction u as [|u IH|u IH|u IH|u IH|u IH|u IH|u IH|u IH|u IH|u IH];
    intros c p; cbn [NilEmpty.string_of_uint take_digits Decimal.nb_digits
                     Pos.of_uint_acc];
    [rewrite Nat.add_0_r; reflexivity|..];
    (replace (c + S (Decimal.nb_digits u))%nat
       with (S c + Decimal.nb_digits u)%nat by lia);
    rewrite <- IH;
    match goal with
    | |- context [digit_of ?ch] =>
        let v := eval vm_compute in (digit_of ch) in
        change (digit_of ch) with v
    end; cbv iota; f_equal; lia.
Qed.

Lemma take_digits_zero (u : Decimal.uint) : forall c : nat,
  take_digits (NilEmpty.string_of_uint u) c 0
  = ((c + Decimal.nb_digits u)%nat, Z.of_N (Pos.of_uint u), EmptyString).
Proof.
  induction u as [|u IH|u IH|u IH|u IH|u IH|u IH|u IH|u IH|u IH|u IH];
    intros c; cbn [NilEmpty.string_of_uint take_digits Decimal.nb_digits
                   Pos.of_uint];
    [rewrite Nat.add_0_r; reflexivity|..];
    (replace (c + S (Decimal.nb_digits u))%nat
       with (S c + Decimal.nb_digits u)%nat by lia).
  all: match goal with
       | |- context [digit_of ?ch] =>
           let v := eval vm_compute in (digit_of ch) in
           change (digit_of ch) with v
       end;
    cbv iota;
    match goal with
    | |- take_digits _ _ ?a = _ =>
        let v := eval vm_compute in a in change a with v
    end;
    first [apply IH | rewrite take_digits_acc; reflexivity].
Qed.

Lemma digits_unsigned (u : Decimal.uint) :
  u <> Decimal.Nil ->
  skip_spaces (NilEmpty.string_of_uint u) = NilEmpty.string_of_uint u
  /\ take_sign (NilEmpty.string_of_uint u) = (false, NilEmpty.string_of_uint u)
  /\ String.prefix "Infinity" (NilEmpty.string_of_uint u) = false
  /\ exists n, Decimal.nb_digits u = S n.
Proof.
  destruct u; [congruence|..]; intros _; repeat split; try reflexivity;
    eexists; reflexivity.
Qed.

Lemma parseInt_digits (u : Decimal.uint) :
  u <> Decimal.Nil ->
  parseInt (NilEmpty.string_of_uint u) = int (Z.of_N (Pos.of_uint u))
  /\ parseInt (String "-" (NilEmpty.string_of_uint u))
     = int (- Z.of_N (Pos.of_uint u)).
Proof.
  intros Hu. destruct (digits_unsigned u Hu) as (Hsp & Hsign & _ & n & Hn).
  unfold parseInt. cbn [skip_spaces is_space]. 
  change (is_space "-") with false. cbv iota. cbn [take_sign].
  rewrite Hsp, Hsign, take_digits_zero, Hn. split; reflexivity.
Qed.

Lemma parseInt_Z_to_string (z : Z) : parseInt (Z_to_string z) = int z.
Proof.
  unfold Z_to_string.
  destruct z as [|p|p]; [reflexivity|..];
    cbn [Z.to_int NilZero.string_of_int];
    pose proof (Unsigned.to_uint_nonnil p) as Hnil;
    destruct (parseInt_digits (Pos.to_uint p) Hnil) as [Hpos Hneg];
    rewrite Unsigned.of_to in Hpos, Hneg.
  - unfold NilZero.string_of_uint.
    destruct (Pos.to_uint p) eqn:E; [congruence|..]; rewrite <- E in *; exact Hpos.
  - unfold NilZero.string_of_uint.
    destruct (Pos.to_uint p) eqn:E; [congruence|..]; rewrite <- E in *; exact Hneg.
Qed.

Lemma parseFloat_digits (u : Decimal.uint) :
  u <> Decimal.Nil ->
  parseFloat (NilEmpty.string_of_uint u) = int (Z.of_N (Pos.of_uint u))
  /\ parseFloat (String "-" (NilEmpty.string_of_uint u))
     = int (- Z.of_N (Pos.of_uint u)).
Proof.
  intros Hu. destruct (digits_unsigned u Hu) as (Hsp & Hsign & Hinf & n & Hn).
  assert (Hmul : forall v, Fin (Qred (inject_Z v * pow10 (take_exponent EmptyString - Z.of_nat 0)))
                           = int v).
  { intros v. change (pow10 _) with (inject_Z 1). unfold int. f_equal.
    replace (inject_Z v * inject_Z 1)%Q with (inject_Z v).
    - apply Qred_inject_Z.
    - unfold Qmult, inject_Z. cbn [Qnum Qden]. rewrite Z.mul_1_r. reflexivity. }
  unfold parseFloat. cbn [skip_spaces].
  change (is_space "-") with false. cbv iota. cbn [take_sign].
  rewrite Hsp, Hsign, Hinf, take_digits_zero, Hn.
  cbn [Nat.add]. split; apply Hmul.
Qed.

Lemma parseFloat_Z_to_string (z : Z) : parseFloat (Z_to_string z) = int z.
Proof.
  unfold Z_to_string.
  destruct z as [|p|p]; [reflexivity|..];
    cbn [Z.to_int NilZero.string_of_int];
    pose proof (Unsigned.to_uint_nonnil p) as Hnil;
    destruct (parseFloat_digits (Pos.to_uint p) Hnil) as [Hpos Hneg];
    rewrite Unsigned.of_to in Hpos, Hneg.
  - unfold NilZero.string_of_uint.
    destruct (Pos.to_uint p) eqn:E; [congruence|..]; rewrite <- E in *; exact Hpos.
  - unfold NilZero.string_of_uint.
    destruct (Pos.to_uint p) eqn:E; [congruence|..]; rewrite <- E in *; exact Hneg.
Qed.

Lemma Z_to_string_truthy (z : Z) : truthy (Some (Z_to_string z)) = true.
Proof.
  unfold Z_to_string. destruct z as [|p|p]; [reflexivity| |reflexivity].
  cbn [Z.to_int NilZero.string_of_int]. unfold NilZero.string_of_uint.
  pose proof (Unsigned.to_uint_nonnil p) as Hnil.
  destruct (Pos.to_uint p); [congruence|..]; reflexivity.
Qed.

Lemma orD_env_number (parse : string -> number) (o : option number)
    (e d : string) :
  truthy o = false -> truthy (Some e) = true ->
  orD o (parse (orD (Some e) d)) = parse e.
Proof.
  intros Ho He. rewrite (orD_falsy o) by exact Ho.
  cbn [orD]. cbn [truthy truthy_option] in He. rewrite He. reflexivity.
Qed.



(** *** More on error normalization *)

Lemma number_to_string_int (n : Z) : number_to_string (int n) = Z_to_string n.
Proof.
  unfold number_to_string, int, inject_Z. cbn [Qnum Qden].
  rewrite Z.rem_1_r, Z.quot_1_r. reflexivity.
Qed.





(** *** More on the pipeline *)

Lemma thrown_message_outcome (t : Thrown) :
  (exists m, thrown_message t = Ok m)
  \/ ((t = ThrowValue JUndefined \/ t = ThrowValue JNull)
      /\ exists msg, thrown_message t = throw_new TypeError msg).
Proof.
  destruct t as [e|v]; [left; eexists; reflexivity|].
  destruct v; try (left; eexists; reflexivity);
    right; (split; [tauto | eexists; reflexivity]).
Qed.

Lemma replay_outcome {W C}
    (client_redis : C -> string -> list JsVal -> Async W JsVal) (c : C)
    (cmds : list KachyPipeline.PipelineCommand) :
  forall acc s,
    match KachyPipeline.replay client_redis c cmds acc s with
    | (Ok results, _) => length results = (length acc + length cmds)%nat
    | (Throw t, _) =>
        (exists msg, t = ThrowError (mkError TypeError msg))
        /\ exists cmd s0 s1 v,
            In cmd cmds /\ (v = JUndefined \/ v = JNull)
            /\ client_redis c (KachyPipeline.command cmd)
                 (KachyPipeline.args cmd) s0
               = (Throw (ThrowValue v), s1)
    end.
Proof.
  induction cmds as [|cmd rest IH]; intros acc s.
  - cbn. lia.
  - cbn [KachyPipeline.replay]. unfold bind at 1, try_catch, bind, ret, lift.
    destruct (client_redis c (KachyPipeline.command cmd)
                (KachyPipeline.args cmd) s) as [[v|t] s1] eqn:Hrun.
    + specialize (IH (acc ++ [v]) s1).
      destruct (KachyPipeline.replay client_redis c rest (acc ++ [v]) s1)
        as [[results|t] s2].
      * rewrite IH, length_app. simpl. lia.
      * destruct IH as (Hmsg & cmd0 & s0 & s3 & v0 & Hin & Hv & Hthrow).
        split; [exact Hmsg|].
        exists cmd0, s0, s3, v0. split; [right; exact Hin|].
        split; assumption.
    + destruct (thrown_message_outcome t) as [[m Hm] | [Hv [msg Hm]]];
        rewrite Hm.
      * specialize (IH (acc ++ [JObj [("error", m)]]) s1).
        destruct (KachyPipeline.replay client_redis c rest
                    (acc ++ [JObj [("error", m)]]) s1) as [[results|t'] s2].
        -- rewrite IH, length_app. simpl. lia.
        -- destruct IH as (Hmsg & cmd0 & s0 & s3 & v0 & Hin & Hv & Hthrow).
           split; [exact Hmsg|].
           exists cmd0, s0, s3, v0. split; [right; exact Hin|].
           split; assumption.
      * split; [eexists; reflexivity|].
        destruct Hv as [-> | ->].
        -- exists cmd, s, s1, JUndefined.
           split; [left; reflexivity|]. split; [left; reflexivity | exact Hrun].
        -- exists cmd, s, s1, JNull.
           split; [left; reflexivity|]. split; [right; reflexivity | exact Hrun].
Qed.

(** X21. For any client: when [execute] returns, it returns exactly one
    result per queued command; and it throws only a [TypeError], and only
    when the raw command of the client threw [undefined] or [null] for one
    of the queued commands, the two values whose message cannot be read. *)
Theorem execute_outcomes {W C}
    (client_redis : C -> string -> list JsVal -> Async W JsVal)
    (p : KachyPipeline.t C) (s : NetState W) :
  match KachyPipeline.execute client_redis p s with
  | (Ok results, _, _) => length results = KachyPipeline.length p
  | (Throw t, _, _) =>
      (exists msg, t = ThrowError (mkError TypeError msg))
      /\ exists cmd s0 s1 v,
          In cmd (KachyPipeline.commands p) /\ (v = JUndefined \/ v = JNull)
          /\ client_redis (KachyPipeline.client p) (KachyPipeline.command cmd)
               (KachyPipeline.args cmd) s0
             = (Throw (ThrowValue v), s1)
  end.
Proof.
  unfold KachyPipeline.execute, KachyPipeline.length.
  destruct (KachyPipeline.commands p) as [|cmd rest] eqn:Hcmds;
    [reflexivity|].
  cbn [List.length Nat.eqb].
  pose proof (replay_outcome client_redis (KachyPipeline.client p)
                (cmd :: rest) [] s) as H.
  destruct (KachyPipeline.replay client_redis (KachyPipeline.client p)
              (cmd :: rest) [] s) as [[results|t] s']; exact H.
Qed.

(** X22. A pipeline never uses the dedicated endpoints: whatever mutators
    queued the commands, [execute] sends each of them as a POST to
    /valkey/exec with the queued name and arguments as the body, one request
    per mutator call in call order, and returns one result per call. *)
Theorem pipeline_uses_exec_only {W}
    (transport : AxiosRequestConfig -> W -> Settled * W)
    (config : KachyConfig.t) (h : Heap.heap) (ms : list Mutation)
    (s : NetState W) :
  ms <> [] ->
  let this := KachyClient.constructor config h in
  exists results p' s' reqs,
    KachyClient.execute transport (chain (KachyClient.pipeline this) ms) s
    = (Ok results, p', s')
    /\ sent s' = sent s ++ reqs
    /\ length results = length ms
    /\ length reqs = length ms
    /\ forall i m, ms !! i = Some m ->
       exists req,
         reqs !! i = Some req
         /\ method req = Some "POST"
         /\ url req = Some "/valkey/exec"
         /\ data req
            = Some (JObj [("command", JStr (KachyPipeline.command (command_of m)));
                          ("args", JArr (KachyPipeline.args (command_of m)))]).
Proof.
  intros Hms this.
  destruct (execute_run transport config h (List.map command_of ms) s)
    as (results & s' & Hexec & Hrep).
  { destruct ms; [congruence | discriminate]. }
  exists results, (KachyPipeline.mk this []), s',
    (List.map (exec_request config h) (List.map command_of ms)).
  split; [rewrite chain_eq; exact Hexec|].
  split; [eapply Replayed_sent, Hrep|].
  split; [rewrite (Replayed_length _ _ _ _ _ _ Hrep), length_map; reflexivity|].
  split; [rewrite !length_map; reflexivity|].
  intros i m Hi. exists (exec_request config h (command_of m)).
  split.
  { rewrite !list_lookup_fmap, Hi. reflexivity. }
  unfold exec_request.
  rewrite (toUpperCase_fixpoint _ (command_of_upper m)).
  apply wire_call.
Qed.

(** [get] and [delete] queued on a pipeline: two POSTs to /valkey/exec. *)
Lemma pipeline_uses_exec_only_witness :
  let transport := fun (_ : AxiosRequestConfig) (w : unit) =>
    (Fulfilled (mkResponse 200 "OK" (JObj [("result", JNum (int 1))])), w) in
  let config :=
    KachyConfig.mk "key" "https://api.klache.net" (int 30) (int 3) (int 1)
      (int 10) "agent" 0%nat in
  let this := KachyClient.constructor config ∅ in
  exists results p' s' req,
    KachyClient.execute transport
      (chain (KachyClient.pipeline this) [MGet "a/b"; MDelete "a/b"])
      (mkNet tt [])
    = (Ok results, p', s')
    /\ sent s' !! 1%nat = Some req
    /\ url req = Some "/valkey/exec"
    /\ data req = Some (JObj [("command", JStr "DEL");
                              ("args", JArr [JStr "a/b"])]).
Proof.
  intros transport config this.
  destruct (pipeline_uses_exec_only transport config ∅
              [MGet "a/b"; MDelete "a/b"] (mkNet tt []))
    as (results & p' & s' & reqs & Hexec & Hsent & _ & _ & Hreq);
    [discriminate|].
  destruct (Hreq 1%nat (MDelete "a/b") eq_refl) as (req & Hi & _ & Hu & Hd).
  exists results, p', s', req. split; [exact Hexec|].
  split; [rewrite Hsent; exact Hi|]. split; [exact Hu | exact Hd].
Defined.
